(** * ansible-pan: the PAN-OS rule query and rule creation modules

    A shallow embedding of [library/panos_query.py] and
    [library/panos_add_rule.py].  Python exceptions are an error monad,
    [for] loops without [break] are folds over the list they walk, the
    [**kwargs] dictionary is a [gmap], and the calls the modules make into
    the Python runtime ([ipaddress], [int], the serialisers) go through a
    type class, with one concrete instance to evaluate examples. *)

From Stdlib Require Import ZArith String Ascii List Bool Lia DecimalString.
From stdpp Require Import gmap strings list fin_maps.
Import ListNotations.

Local Open Scope string_scope.
Local Open Scope Z_scope.

(** ** Python values and control flow *)

(** The exceptions the two modules can let escape. *)
Inductive exception : Type :=
  | ValueError
  | IndexError
  | TypeError
  | AttributeError
  | KeyError.

(** A Python expression either has a value or raises. *)
Inductive res (A : Type) : Type :=
  | Ok (a : A)
  | Raise (e : exception).
Arguments Ok {A} a.
Arguments Raise {A} e.

Definition res_bind {A B : Type} (m : res A) (k : A -> res B) : res B :=
  match m with
  | Ok a => k a
  | Raise e => Raise e
  end.

Notation "'let!' x ':=' m 'in' k" := (res_bind m (fun x => k))
  (at level 10, x name, m at level 100, k at level 200).

(** A [for x in xs:] loop whose body updates one local variable and has no
    [break]: the body runs on every element, left to right, unless it
    raises. *)
Fixpoint for_each {A S : Type} (body : S -> A -> res S) (xs : list A) (s : S)
  : res S :=
  match xs with
  | [] => Ok s
  | x :: rest => let! s' := body s x in for_each body rest s'
  end.

(** Truth value of an optional string parameter: [None] and [''] are
    false. *)
Definition truthy (o : option string) : bool :=
  match o with
  | Some s => negb (String.eqb s "")
  | None => false
  end.

(** [str(x)] / ['%s' % x] for a parameter that is a string or [None]. *)
Definition py_str (o : option string) : string :=
  match o with
  | Some s => s
  | None => "None"
  end.

(** The message both modules fail with on an unknown device group:
    [device group not found in Panorama], after the quoted name. *)
Definition device_group_not_found (devicegroup : string) : string :=
  "'" ++ devicegroup
  ++ "' device group not found in Panorama. Is the name correct?".

(** [x in xs] for a list of strings. *)
Fixpoint str_in (x : string) (xs : list string) : bool :=
  match xs with
  | [] => false
  | y :: rest => String.eqb y x || str_in x rest
  end.

(** [c in s] for a one-character [c]. *)
Fixpoint char_in (c : ascii) (s : string) : bool :=
  match s with
  | EmptyString => false
  | String d rest => Ascii.eqb d c || char_in c rest
  end.

(** [s.split(c)] for a one-character separator: never empty. *)
Fixpoint split (c : ascii) (s : string) : list string :=
  match s with
  | EmptyString => [EmptyString]
  | String d rest =>
      if Ascii.eqb d c then EmptyString :: split c rest
      else match split c rest with
           | [] => [String d EmptyString]
           | w :: ws => String d w :: ws
           end
  end.

(** [xs[i]], raising [IndexError] out of range. *)
Definition index {A : Type} (xs : list A) (i : nat) : res A :=
  match nth_error xs i with
  | Some x => Ok x
  | None => Raise IndexError
  end.

(** [str(n)] for a length. *)
Definition str_of_nat (n : nat) : string :=
  NilEmpty.string_of_uint (Nat.to_uint n).

(** ** The [ipaddress] objects *)

(** An [IPv4Address] or [IPv6Address]: its [_version] and its [_ip]. *)
Record IPAddress : Type := mkIPAddress {
  ip_version : Z;
  ip_int : Z
}.

(** An [IPv4Network] or [IPv6Network]: its version and the integers of its
    first and last address. *)
Record IPNetwork : Type := mkIPNetwork {
  net_version : Z;
  network_address : Z;
  broadcast_address : Z
}.

(** [a < b] on addresses: [TypeError] across versions. *)
Definition ip_lt (a b : IPAddress) : res bool :=
  if negb (ip_version a =? ip_version b) then Raise TypeError
  else Ok (ip_int a <? ip_int b).

(** [ip in net]: false across versions. *)
Definition ip_in_net (ip : IPAddress) (net : IPNetwork) : bool :=
  if negb (net_version net =? ip_version ip) then false
  else (network_address net <=? ip_int ip) && (ip_int ip <=? broadcast_address net).

(** What the modules ask of the Python runtime.  [None] stands for the
    [ValueError] the call raises on a string it cannot read. *)
Class PyRuntime : Type := {
  ip_address : string -> option IPAddress;
  ip_network : string -> option IPNetwork;
  int : string -> option Z
}.

Definition value_of {A : Type} (o : option A) : res A :=
  match o with
  | Some a => Ok a
  | None => Raise ValueError
  end.

(** ** One runtime, for decimal integers and dotted-quad IPv4 *)

Module Decimal.

Definition digit (c : ascii) : option Z :=
  let n := Z.of_nat (nat_of_ascii c) in
  if (48 <=? n) && (n <=? 57) then Some (n - 48) else None.

Fixpoint digits (s : string) (acc : Z) : option Z :=
  match s with
  | EmptyString => Some acc
  | String c rest =>
      match digit c with
      | Some d => digits rest (10 * acc + d)
      | None => None
      end
  end.

(** A non-empty run of decimal digits. *)
Definition number (s : string) : option Z :=
  match s with
  | EmptyString => None
  | _ => digits s 0
  end.

Definition is_space (c : ascii) : bool :=
  let n := nat_of_ascii c in
  (Nat.eqb n 32 || (Nat.leb 9 n && Nat.leb n 13))%bool.

Fixpoint lstrip (s : string) : string :=
  match s with
  | String c rest => if is_space c then lstrip rest else s
  | EmptyString => EmptyString
  end.

Fixpoint rstrip (s : string) : string :=
  match s with
  | EmptyString => EmptyString
  | String c rest =>
      match rstrip rest with
      | EmptyString => if is_space c then EmptyString else String c EmptyString
      | r => String c r
      end
  end.

(** [int(s)] in base ten: blanks around, an optional sign, digits. *)
Definition int (s : string) : option Z :=
  match rstrip (lstrip s) with
  | String "-" rest => option_map Z.opp (number rest)
  | String "+" rest => number rest
  | t => number t
  end.

(** One octet of a dotted quad: at most three digits, at most 255, and no
    leading zero on a value above seven. *)
Definition octet (s : string) : option Z :=
  if Nat.ltb 3 (String.length s) then None
  else match number s with
       | Some n =>
           if (7 <? n) && char_in "0" (substring 0 1 s) then None
           else if 255 <? n then None else Some n
       | None => None
       end.

Definition dotted_quad (s : string) : option Z :=
  match split "." s with
  | [a; b; c; d] =>
      match octet a, octet b, octet c, octet d with
      | Some a, Some b, Some c, Some d =>
          Some (((a * 256 + b) * 256 + c) * 256 + d)
      | _, _, _, _ => None
      end
  | _ => None
  end.

Definition ip_address (s : string) : option IPAddress :=
  option_map (mkIPAddress 4) (dotted_quad s).

(** A prefix length, written in decimal, from 0 to 32. *)
Definition prefixlen (s : string) : option Z :=
  match number s with
  | Some n => if n <=? 32 then Some n else None
  | None => None
  end.

(** [ip_network(s)], strict: host bits must be clear. *)
Definition ip_network (s : string) : option IPNetwork :=
  match split "/" s with
  | [a] => option_map (fun n => mkIPNetwork 4 n n) (dotted_quad a)
  | [a; p] =>
      match dotted_quad a, prefixlen p with
      | Some n, Some len =>
          let hosts := 2 ^ (32 - len) in
          if n mod hosts =? 0 then Some (mkIPNetwork 4 n (n + hosts - 1))
          else None
      | _, _ => None
      end
  | _ => None
  end.

End Decimal.

(** The runtime used in the examples.  It reads IPv4 only, and prefix
    lengths only in decimal. *)
Definition ipv4_runtime : PyRuntime := {|
  ip_address := Decimal.ip_address;
  ip_network := Decimal.ip_network;
  int := Decimal.int
|}.

(** ** library/panos_query.py *)

Module panos_query.

(** *** The pandevice object tree, as the module reads it *)

Record AddressObject : Type := {
  ao_name : string;
  ao_type : string;            (* 'ip-netmask', 'ip-range', ... *)
  ao_value : string
}.

(** [static_value] is the member list; the empty list also stands for an
    unset one, since the module only tests its truth value. *)
Record AddressGroup : Type := {
  ag_name : string;
  static_value : list string
}.

Record ServiceObject : Type := {
  so_name : string;
  protocol : string;
  source_port : string;
  destination_port : string
}.

Record ServiceGroup : Type := {
  sg_name : string;
  sg_value : list string
}.

Record Tag : Type := {
  tag_name : string
}.

(** A child of a device or of a device group. *)
Inductive PanObject : Type :=
  | IsAddressObject (o : AddressObject)
  | IsAddressGroup (g : AddressGroup)
  | IsServiceObject (s : ServiceObject)
  | IsServiceGroup (g : ServiceGroup)
  | IsTag (t : Tag).

Inductive class : Type :=
  | CAddressObject
  | CAddressGroup
  | CServiceObject
  | CServiceGroup
  | CTag.

Definition class_of (o : PanObject) : class :=
  match o with
  | IsAddressObject _ => CAddressObject
  | IsAddressGroup _ => CAddressGroup
  | IsServiceObject _ => CServiceObject
  | IsServiceGroup _ => CServiceGroup
  | IsTag _ => CTag
  end.

Definition class_eqb (a b : class) : bool :=
  match a, b with
  | CAddressObject, CAddressObject
  | CAddressGroup, CAddressGroup
  | CServiceObject, CServiceObject
  | CServiceGroup, CServiceGroup
  | CTag, CTag => true
  | _, _ => false
  end.

Definition name (o : PanObject) : string :=
  match o with
  | IsAddressObject o => ao_name o
  | IsAddressGroup g => ag_name g
  | IsServiceObject s => so_name s
  | IsServiceGroup g => sg_name g
  | IsTag t => tag_name t
  end.

Record SecurityRule : Type := {
  rule_name : string;
  fromzone : list string;
  tozone : list string;
  source : list string;
  destination : list string;
  service : list string;
  tag : list string;
  action : string
}.

(** A device group: its name and the children the five [refreshall] calls
    load into it. *)
Record DeviceGroup : Type := {
  dg_name : string;
  dg_children : list PanObject
}.

(** An entry of the list [refresh_devices] returns. *)
Inductive managed : Type :=
  | ManagedFirewall (serial : string)
  | ManagedGroup (g : DeviceGroup).

Inductive device_class : Type :=
  | Firewall
  | Panorama
  | OtherDevice.

(** The device [create_from_device] connects to: its class, the children
    the five [refreshall] calls load into it, the answer of
    [refresh_devices], and the rules [SecurityRule.refreshall] loads into
    the rulebase built for a given [devicegroup] argument. *)
Record Device : Type := {
  device_kind : device_class;
  children : list PanObject;
  devices : list managed;
  rules : option DeviceGroup -> list SecurityRule
}.

Definition is_panorama (device : Device) : bool :=
  match device_kind device with
  | Panorama => true
  | _ => false
  end.

(** [parent.find(name, class_type)]: the first child of that class and
    name, [None] without one. *)
Definition find (kids : list PanObject) (obj_name : string) (c : class)
  : option PanObject :=
  List.find (fun o => String.eqb (name o) obj_name && class_eqb (class_of o) c) kids.

(** [dev_group.find(...)]: [dev_group] is [None] when no group was
    validated. *)
Definition group_find (dev_group : option DeviceGroup) (obj_name : string)
  (c : class) : res (option PanObject) :=
  match dev_group with
  | Some g => Ok (find (dg_children g) obj_name c)
  | None => Raise AttributeError
  end.

(** What a local variable of [main] can hold. *)
Inductive value : Type :=
  | VFalse
  | VObject (o : PanObject)
  | VNetwork (n : IPNetwork).

Definition isinstance (v : value) (c : class) : bool :=
  match v with
  | VObject o => class_eqb (class_of o) c
  | _ => false
  end.

(** The module parameters the query reads. *)
Record Params : Type := {
  source_zone_p : option string;
  destination_zone_p : option string;
  source_ip_p : option string;
  destination_ip_p : option string;
  source_port_p : option string;
  destination_port_p : option string;
  protocol_p : option string;
  tag_p : option string;
  devicegroup_p : option string
}.

(** How [main] ends. *)
Inductive exit : Type :=
  | ExitJson (stdout_lines msg : string)
  | FailJson (msg : string)
  | ReturnTrue
  | Uncaught (e : exception).

(** The requests [main] sends to the device. *)
Inductive event : Type :=
  | RefreshObjects (scope : option string)
  | RefreshDevices
  | RefreshRules.

(** The body of one iteration of the rule loop: the hit list, a [return
    True] out of [main], or an exception. *)
Inductive flow (A : Type) : Type :=
  | Next (a : A)
  | Return_True
  | Raised (e : exception).
Arguments Next {A} a.
Arguments Return_True {A}.
Arguments Raised {A} e.

(** [hitbase.element_str()], [xmltodict.parse] and [json.dumps]. *)
Class Serializer : Type := {
  document : Type;
  element_str : list SecurityRule -> string;
  xmltodict_parse : string -> document;
  json_dumps : document -> string
}.

Definition get_devicegroup (device : Device) (devicegroup : string)
  : option DeviceGroup :=
  let fix loop (dg_list : list managed) : option DeviceGroup :=
    match dg_list with
    | [] => None
    | ManagedGroup group :: rest =>
        if String.eqb (dg_name group) devicegroup then Some group else loop rest
    | ManagedFirewall _ :: rest => loop rest
    end in
  loop (devices device).

(** [None] is the [False] of the last branch.  A firewall's rulebase does
    not depend on [devicegroup]. *)
Definition get_rulebase (device : Device) (devicegroup : option DeviceGroup)
  : option (list SecurityRule) :=
  match device_kind device with
  | Firewall => Some (rules device None)
  | Panorama => Some (rules device devicegroup)
  | OtherDevice => None
  end.

Section Matching.

Context {runtime : PyRuntime}.
Variable device : Device.
Variable dev_group : option DeviceGroup.

Definition get_object (obj_name : string) : res value :=
  match find (children device) obj_name CAddressObject with
  | Some m => Ok (VObject m)
  | None =>
  match find (children device) obj_name CAddressGroup with
  | Some m => Ok (VObject m)
  | None =>
  if is_panorama device then
    let! m := group_find dev_group obj_name CAddressObject in
    match m with
    | Some m => Ok (VObject m)
    | None =>
        let! m := group_find dev_group obj_name CAddressGroup in
        match m with
        | Some m => Ok (VObject m)
        | None => Ok VFalse
        end
    end
  else Ok VFalse
  end end.

Definition get_service (obj_name : string) : res value :=
  match find (children device) obj_name CServiceObject with
  | Some m => Ok (VObject m)
  | None =>
  match find (children device) obj_name CServiceGroup with
  | Some m => Ok (VObject m)
  | None =>
  if is_panorama device then
    let! m := group_find dev_group obj_name CServiceObject in
    match m with
    | Some m => Ok (VObject m)
    | None =>
        let! m := group_find dev_group obj_name CServiceGroup in
        match m with
        | Some m => Ok (VObject m)
        | None => Ok VFalse
        end
    end
  else Ok VFalse
  end end.

Definition get_tag (obj_name : string) : res value :=
  match find (children device) obj_name CTag with
  | Some m => Ok (VObject m)
  | None =>
  if is_panorama device then
    let! m := group_find dev_group obj_name CTag in
    match m with
    | Some m => Ok (VObject m)
    | None => Ok VFalse
    end
  else Ok VFalse
  end.

(** [lower < ip < upper]: the second comparison only after a true
    first one. *)
Definition strictly_between (lower ip upper : IPAddress) : res bool :=
  let! below := ip_lt lower ip in
  if below then ip_lt ip upper else Ok false.

Definition addr_in_obj (addr : string) (obj : value) : res bool :=
  let! ip := value_of (ip_address addr) in
  match obj with
  | VObject (IsAddressObject o) =>
      let! in_net :=
        (if String.eqb (ao_type o) "ip-netmask" then
           let! net := value_of (ip_network (ao_value o)) in
           Ok (ip_in_net ip net)
         else Ok false) in
      if in_net then Ok true
      else if String.eqb (ao_type o) "ip-range" then
        let ip_range := split "-" (ao_value o) in
        let! lo := index ip_range 0 in
        let! lower := value_of (ip_address lo) in
        let! hi := index ip_range 1 in
        let! upper := value_of (ip_address hi) in
        let! inside := strictly_between lower ip upper in
        if inside then Ok true else Ok false
      else Ok false
  | _ => Ok false
  end.

(** [obj.source_port], [obj.destination_port] and [obj.protocol]: only
    a Service Object has them. *)
Definition getattr_service {A : Type} (field : ServiceObject -> A)
  (obj : value) : res A :=
  match obj with
  | VObject (IsServiceObject s) => Ok (field s)
  | _ => Raise AttributeError
  end.

(** [obj.protocol == protocol], the parameter being a string or
    [None]. *)
Definition protocol_eq (obj_protocol : string) (proto : option string) : bool :=
  match proto with
  | Some q => String.eqb obj_protocol q
  | None => false
  end.

(** The loop over the elements of one port spec, left at the first
    match. *)
Fixpoint port_in_spec (xs : list string) (port : string)
  (proto : option string) (obj : value) : res bool :=
  match xs with
  | [] => Ok false
  | x :: rest =>
      let! hit :=
        (if char_in "-" x then
           let port_range := split "-" x in
           let! lo := index port_range 0 in
           let! lower := value_of (int lo) in
           let! hi := index port_range 1 in
           let! upper := value_of (int hi) in
           let! p := value_of (int port) in
           if (lower <? p) && (p <? upper) then
             let! obj_protocol := getattr_service protocol obj in
             Ok (protocol_eq obj_protocol proto)
           else Ok false
         else
           if String.eqb port x then
             let! obj_protocol := getattr_service protocol obj in
             Ok (protocol_eq obj_protocol proto)
           else Ok false) in
      if hit then Ok true else port_in_spec rest port proto obj
  end.

(** Both literals of [orientation is 'source'] are the same interned
    string, so the identity test is an equality test. *)
Definition port_in_svc (orientation port : string) (proto : option string)
  (obj : value) : res bool :=
  if String.eqb orientation "source" then
    let! spec := getattr_service source_port obj in
    port_in_spec (split "," spec) port proto obj
  else if String.eqb orientation "destination" then
    let! spec := getattr_service destination_port obj in
    port_in_spec (split "," spec) port proto obj
  else Ok false.

(** *** The rule loop of [main] *)

Definition loose_match : bool := true.

(** Lines 312-330: the zone criteria. *)
Definition zone_match (zone : string) (zones : list string) : bool :=
  if loose_match && str_in "any" zones then true
  else
    fold_left
      (fun matched object_string =>
         if String.eqb object_string zone then true else matched)
      zones false.

(** The loop over the members of an Address Group. *)
Definition member_step (ip : string) (matched : bool) (member_string : string)
  : res bool :=
  let! member := get_object member_string in
  let! inside := addr_in_obj ip member in
  Ok (if inside then true else matched).

(** One iteration of the loop over an address list.  An unresolved
    name that does not parse leaves the loop variable alone
    ([continue]); one that parses makes [obj] a network. *)
Definition address_step (ip : string) (matched : bool) (object_string : string)
  : res bool :=
  let! found := get_object object_string in
  let parsed :=
    match found with
    | VFalse => option_map VNetwork (ip_network object_string)
    | _ => Some found
    end in
  match parsed with
  | None => Ok matched
  | Some obj =>
      let! first :=
        (if isinstance obj CAddressObject then addr_in_obj ip obj
         else Ok false) in
      if first then Ok true
      else
        match obj with
        | VObject (IsAddressGroup g) =>
            match static_value g with
            | [] => Ok matched
            | members => for_each (member_step ip) members matched
            end
        | _ => Ok matched
        end
  end.

(** Lines 332-372: the address criteria, the same code on [rule.source]
    and on [rule.destination]. *)
Definition ip_match (ip : string) (addresses : list string) : res bool :=
  if loose_match && str_in "any" addresses then Ok true
  else for_each (address_step ip) addresses false.

(** The loop over the members of a Service Group. *)
Definition service_member_step (orientation port : string)
  (proto : option string) (matched : bool) (member_string : string) : res bool :=
  let! member := get_service member_string in
  let! inside := port_in_svc orientation port proto member in
  Ok (if inside then true else matched).

(** One iteration of the loop over a service list. *)
Definition service_step (orientation port : string) (proto : option string)
  (matched : bool) (object_string : string) : res bool :=
  let! obj := get_service object_string in
  match obj with
  | VObject (IsServiceObject _) =>
      let! inside := port_in_svc orientation port proto obj in
      Ok (if inside then true else matched)
  | VObject (IsServiceGroup g) =>
      for_each (service_member_step orientation port proto) (sg_value g) matched
  | _ => Ok matched
  end.

(** Lines 374-412: the port criteria, the same code with
    [orientation = 'source'] and [orientation = 'destination']. *)
Definition port_match (orientation port : string) (proto : option string)
  (services : list string) : res bool :=
  if loose_match && str_in "any" services then Ok true
  else if str_in "application-default" services then Ok false
  else for_each (service_step orientation port proto) services false.

(** Lines 414-420: the tag criterion.  [tag_match] is never set; a
    matching tag returns from [main]. *)
Fixpoint tag_loop (queried : string) (tags : list string) : flow bool :=
  match tags with
  | [] => Next false
  | object_string :: rest =>
      match get_tag object_string with
      | Raise e => Raised e
      | Ok (VObject o) =>
          if String.eqb (name o) queried then Return_True
          else tag_loop queried rest
      | Ok _ => tag_loop queried rest
      end
  end.

(** [if param: ...; hitlist.append(...)] for one criterion. *)
Definition criterion (param : option string) (test : string -> res bool)
  (hitlist : list bool) : res (list bool) :=
  match param with
  | Some v =>
      if truthy param then
        let! matched := test v in Ok (hitlist ++ [matched])%list
      else Ok hitlist
  | None => Ok hitlist
  end.

(** Lines 310-412: the hit list up to the tag criterion. *)
Definition criteria_hitlist (p : Params) (rule : SecurityRule)
  : res (list bool) :=
  let hitlist := [] in
  let! hitlist :=
    criterion (source_zone_p p)
      (fun zone => Ok (zone_match zone (fromzone rule))) hitlist in
  let! hitlist :=
    criterion (destination_zone_p p)
      (fun zone => Ok (zone_match zone (tozone rule))) hitlist in
  let! hitlist :=
    criterion (source_ip_p p)
      (fun ip => ip_match ip (source rule)) hitlist in
  let! hitlist :=
    criterion (destination_ip_p p)
      (fun ip => ip_match ip (destination rule)) hitlist in
  let! hitlist :=
    criterion (source_port_p p)
      (fun port => port_match "source" port (protocol_p p) (service rule))
      hitlist in
  let! hitlist :=
    criterion (destination_port_p p)
      (fun port => port_match "destination" port (protocol_p p) (service rule))
      hitlist in
  Ok hitlist.

(** Lines 310-420: one iteration of the rule loop, up to the hit
    list. *)
Definition rule_hitlist (p : Params) (rule : SecurityRule) : flow (list bool) :=
  match criteria_hitlist p rule with
  | Raise e => Raised e
  | Ok hitlist =>
      match tag_p p with
      | Some queried =>
          if truthy (tag_p p) then
            match tag_loop queried (tag rule) with
            | Next tag_match => Next (hitlist ++ [tag_match])%list
            | Return_True => Return_True
            | Raised e => Raised e
            end
          else Next hitlist
      | None => Next hitlist
      end
  end.

(** [False not in hitlist]. *)
Definition is_hit (hitlist : list bool) : bool :=
  negb (existsb negb hitlist).

(** Lines 309-424: the loop over the rules, [hitbase.add(rule)] on a
    hit. *)
Fixpoint rule_loop (p : Params) (rulelist hitbase : list SecurityRule)
  : flow (list SecurityRule) :=
  match rulelist with
  | [] => Next hitbase
  | rule :: rest =>
      match rule_hitlist p rule with
      | Next hitlist =>
          rule_loop p rest
            (if is_hit hitlist then (hitbase ++ [rule])%list else hitbase)
      | Return_True => Return_True
      | Raised e => Raised e
      end
  end.

End Matching.

Section Main.

Context {runtime : PyRuntime} {serializer : Serializer}.

(** Lines 285-300: the validation of the device group.  The left side
    is [dev_group]; the right side is the message of [fail_json]. *)
Definition main_devicegroup (device : Device) (p : Params)
  : list event * (option DeviceGroup + string) :=
  match devicegroup_p p with
  | Some devicegroup =>
      if truthy (devicegroup_p p) && is_panorama device then
        match get_devicegroup device devicegroup with
        | Some g =>
            ([RefreshDevices; RefreshObjects (Some (dg_name g))], inl (Some g))
        | None => ([RefreshDevices], inr (device_group_not_found devicegroup))
        end
      else ([], inl None)
  | None => ([], inl None)
  end.

(** Lines 426-434: the dump of the hit rulebase. *)
Definition main_dump (hitbase rulelist : list SecurityRule) : exit :=
  match hitbase with
  | [] => FailJson "No matching rules found."
  | _ :: _ =>
      ExitJson
        (json_dumps (xmltodict_parse (element_str hitbase)))
        (str_of_nat (length hitbase) ++ " of " ++ str_of_nat (length rulelist)
         ++ " rules matched")
  end.

(** Lines 302-434: from the rulebase to the exit. *)
Definition main_query (device : Device) (dev_group : option DeviceGroup)
  (p : Params) : list event * exit :=
  match get_rulebase device dev_group with
  | None => ([], Uncaught AttributeError)
  | Some rulelist =>
      ([RefreshRules],
       match rule_loop device dev_group p rulelist [] with
       | Next hitbase => main_dump hitbase rulelist
       | Return_True => ReturnTrue
       | Raised e => Uncaught e
       end)
  end.

Definition main (HAS_LIB : bool) (device : Device) (p : Params)
  : list event * exit :=
  if negb HAS_LIB then ([], FailJson "Missing required libraries.")
  else
    let (validation, outcome) := main_devicegroup device p in
    match outcome with
    | inr msg => (RefreshObjects None :: validation, FailJson msg)
    | inl dev_group =>
        let (query, result) := main_query device dev_group p in
        ((RefreshObjects None :: validation) ++ query, result)%list
    end.

End Main.

End panos_query.

(** ** library/panos_add_rule.py *)

Module panos_add_rule.

(** The values of the module parameters and of the rule attributes. *)
Inductive pyval : Type :=
  | PNone
  | PStr (s : string)
  | PBool (b : bool)
  | PList (l : list string).

Definition of_option (o : option string) : pyval :=
  match o with
  | Some s => PStr s
  | None => PNone
  end.

(** A [SecurityRule] object is the bag of the attributes that were set on
    it; an attribute that was never set is absent from the map. *)
Abbreviation SecurityRule := (gmap string pyval).

(** [rule.attr], [None] when unset. *)
Definition getattr (rule : SecurityRule) (attr : string) : pyval :=
  match rule !! attr with
  | Some v => v
  | None => PNone
  end.

Inductive device_class : Type :=
  | Firewall
  | Panorama
  | OtherDevice.

(** An entry of the list [refresh_devices] returns: a firewall, or a
    device group with its name. *)
Inductive managed : Type :=
  | ManagedFirewall (serial : string)
  | ManagedGroup (group_name : string).

(** The device: its class, the answer of [refresh_devices], and whether
    [sec_rule.create()] raises a [PanXapiError], with which message. *)
Record Device : Type := {
  device_kind : device_class;
  devices : list managed;
  create_error : SecurityRule -> option string
}.

Definition is_panorama (device : Device) : bool :=
  match device_kind device with
  | Panorama => true
  | _ => false
  end.

Inductive rulebase : Type :=
  | Rulebase
  | PreRulebase (devicegroup : option string).

Record Params : Type := {
  rule_name : string;
  description : string;
  tag : option string;
  to_zone : list string;
  from_zone : list string;
  source : list string;
  source_user : list string;
  destination : list string;
  category : list string;
  application : list string;
  service : list string;
  hip_profiles : list string;
  group_profile : option string;
  antivirus : option string;
  vulnerability : option string;
  spyware : option string;
  url_filtering : option string;
  file_blocking : option string;
  data_filtering : option string;
  wildfire_analysis : option string;
  log_start : bool;
  log_end : bool;
  rule_type : string;
  action : string;
  devicegroup : option string
}.

Inductive exit : Type :=
  | ExitJson (changed : bool) (msg : string)
  | FailJson (msg : string)
  | Uncaught (e : exception).

Inductive event : Type :=
  | RefreshDevices
  | RefreshRules
  | Create (rule : SecurityRule).

Definition devicegroup_exists (device : Device) (devicegroup : option string)
  : bool :=
  let fix loop (dev_grps : list managed) : bool :=
    match dev_grps with
    | [] => false
    | ManagedGroup grp_name :: rest =>
        match devicegroup with
        | Some d => if String.eqb grp_name d then true else loop rest
        | None => loop rest
        end
    | ManagedFirewall _ :: rest => loop rest
    end in
  loop (devices device).

(** [None] is the [False] of the last branch.  The requests of
    [refresh_devices] and [SecurityRule.refreshall] are taken to answer:
    an error of theirs, which [main] does not catch, is outside this
    model, and nothing below is claimed about it. *)
Definition get_rulebase (device : Device) (devicegroup : option string)
  : option rulebase :=
  match device_kind device with
  | Firewall => Some Rulebase
  | Panorama => Some (PreRulebase devicegroup)
  | OtherDevice => None
  end.

(** [kwargs[key]]. *)
Definition getitem (kwargs : gmap string pyval) (key : string) : res pyval :=
  match kwargs !! key with
  | Some v => Ok v
  | None => Raise KeyError
  end.

(** [if key in kwargs: security_rule.attr = kwargs[key]]. *)
Definition set_if_in (kwargs : gmap string pyval) (key attr : string)
  (security_rule : SecurityRule) : SecurityRule :=
  match kwargs !! key with
  | Some v => <[attr := v]> security_rule
  | None => security_rule
  end.

Definition create_security_rule (kwargs : gmap string pyval) : res SecurityRule :=
  let! name := getitem kwargs "rule_name" in
  let! description := getitem kwargs "description" in
  let! tozone := getitem kwargs "to_zone" in
  let! fromzone := getitem kwargs "from_zone" in
  let! source := getitem kwargs "source" in
  let! source_user := getitem kwargs "source_user" in
  let! destination := getitem kwargs "destination" in
  let! category := getitem kwargs "category" in
  let! application := getitem kwargs "application" in
  let! service := getitem kwargs "service" in
  let! hip_profiles := getitem kwargs "hip_profiles" in
  let! log_start := getitem kwargs "log_start" in
  let! log_end := getitem kwargs "log_end" in
  let! type := getitem kwargs "rule_type" in
  let! action := getitem kwargs "action" in
  let security_rule : SecurityRule :=
    list_to_map
      [("name", name); ("description", description); ("tozone", tozone);
       ("fromzone", fromzone); ("source", source);
       ("source_user", source_user); ("destination", destination);
       ("category", category); ("application", application);
       ("service", service); ("hip_profiles", hip_profiles);
       ("log_start", log_start); ("log_end", log_end); ("type", type);
       ("action", action)] in
  let security_rule := set_if_in kwargs "tag" "tag" security_rule in
  (* profile settings *)
  match kwargs !! "group_profile" with
  | Some v => Ok (<["group" := v]> security_rule)
  | None =>
      let security_rule := set_if_in kwargs "antivirus" "virus" security_rule in
      let security_rule :=
        set_if_in kwargs "vulnerability" "vulnerability" security_rule in
      let security_rule := set_if_in kwargs "spyware" "spyware" security_rule in
      let security_rule :=
        set_if_in kwargs "url_filtering" "url_filtering" security_rule in
      let security_rule :=
        set_if_in kwargs "file_blocking" "file_blocking" security_rule in
      let security_rule :=
        set_if_in kwargs "data_filtering" "data_filtering" security_rule in
      let security_rule :=
        set_if_in kwargs "wildfire_analysis" "wildfire_analysis" security_rule in
      Ok security_rule
  end.

(** [rulebase.add(sec_rule); sec_rule.create()] on a true [rulebase].
    The right side is the message of the [PanXapiError] that [create]
    raised. *)
Definition add_rule (device : Device) (rb : option rulebase)
  (sec_rule : SecurityRule) : list event * (bool + string) :=
  match rb with
  | Some _ =>
      ([Create sec_rule],
       match create_error device sec_rule with
       | Some message => inr message
       | None => inl true
       end)
  | None => ([], inl false)
  end.

(** The keyword arguments of the call in [main]: every key, each time. *)
Definition main_kwargs (p : Params) : gmap string pyval :=
  list_to_map
    [("rule_name", PStr (rule_name p));
     ("description", PStr (description p));
     ("tag", of_option (tag p));
     ("from_zone", PList (from_zone p));
     ("to_zone", PList (to_zone p));
     ("source", PList (source p));
     ("source_user", PList (source_user p));
     ("destination", PList (destination p));
     ("category", PList (category p));
     ("application", PList (application p));
     ("service", PList (service p));
     ("hip_profiles", PList (hip_profiles p));
     ("group_profile", of_option (group_profile p));
     ("antivirus", of_option (antivirus p));
     ("vulnerability", of_option (vulnerability p));
     ("spyware", of_option (spyware p));
     ("url_filtering", of_option (url_filtering p));
     ("file_blocking", of_option (file_blocking p));
     ("data_filtering", of_option (data_filtering p));
     ("wildfire_analysis", of_option (wildfire_analysis p));
     ("log_start", PBool (log_start p));
     ("log_end", PBool (log_end p));
     ("rule_type", PStr (rule_type p));
     ("action", PStr (action p))].

(** Lines 426-464: from the rulebase to the exit. *)
Definition main_create (device : Device) (p : Params) : list event * exit :=
  let rb := get_rulebase device (devicegroup p) in
  let fetched := match rb with Some _ => [RefreshRules] | None => [] end in
  match create_security_rule (main_kwargs p) with
  | Raise e => (fetched, Uncaught e)
  | Ok sec_rule =>
      let (created, changed) := add_rule device rb sec_rule in
      ((fetched ++ created)%list,
       match changed with
       | inl changed =>
           ExitJson changed ("Rule '" ++ rule_name p ++ "' successfully added")
       | inr message => FailJson message
       end)
  end.

Definition main (HAS_LIB : bool) (device : Device) (p : Params)
  : list event * exit :=
  if negb HAS_LIB then ([], FailJson "Missing required libraries.")
  else if is_panorama device then
    if devicegroup_exists device (devicegroup p) then
      let (requests, result) := main_create device p in
      (RefreshDevices :: requests, result)
    else
      ([RefreshDevices],
       FailJson (device_group_not_found (py_str (devicegroup p))))
  else main_create device p.

End panos_add_rule.

(** ** The port and address tests, as the specification words them *)

Section Described.

Context {runtime : PyRuntime}.
Import panos_query.

(** An element of a port spec that the port test can read: a range
    element needs its two bounds and the queried port to be integers. *)
Definition element_readable (port x : string) : bool :=
  if char_in "-" x then
    match split "-" x with
    | lo :: hi :: _ =>
        match int lo, int hi, int port with
        | Some _, Some _, Some _ => true
        | _, _, _ => false
        end
    | _ => false
    end
  else true.

(** A range element matches a port strictly between its bounds, a single
    element matches the port written the same way; both need the
    protocol of the object to be the queried one. *)
Definition element_matches (port : string) (proto : option string)
  (s : ServiceObject) (x : string) : bool :=
  if char_in "-" x then
    match split "-" x with
    | lo :: hi :: _ =>
        match int lo, int hi, int port with
        | Some lower, Some upper, Some p =>
            (lower <? p) && (p <? upper) && protocol_eq (protocol s) proto
        | _, _, _ => false
        end
    | _ => false
    end
  else String.eqb port x && protocol_eq (protocol s) proto.

(** The two orientations of the port test. *)
Definition is_orientation (orientation : string) : Prop :=
  orientation = "source" \/ orientation = "destination".

Definition is_service_object (v : value) : bool :=
  isinstance v CServiceObject.

(** No zone, address, port or tag criterion is supplied. *)
Definition no_criteria (p : Params) : bool :=
  negb (truthy (source_zone_p p)) && negb (truthy (destination_zone_p p))
  && negb (truthy (source_ip_p p)) && negb (truthy (destination_ip_p p))
  && negb (truthy (source_port_p p)) && negb (truthy (destination_port_p p))
  && negb (truthy (tag_p p)).

(** The rules whose iteration ends with a hit list without [False]. *)
Definition rule_is_hit (device : Device) (dev_group : option DeviceGroup)
  (p : Params) (rule : SecurityRule) : bool :=
  match rule_hitlist device dev_group p rule with
  | Next hitlist => is_hit hitlist
  | _ => false
  end.

End Described.

(** The port parameter of a query and the port spec of a Service Object
    that the port test of an orientation reads. *)
Definition port_param (orientation : string) (p : panos_query.Params)
  : option string :=
  if String.eqb orientation "source" then panos_query.source_port_p p
  else panos_query.destination_port_p p.

Definition port_spec (orientation : string) (s : panos_query.ServiceObject)
  : string :=
  if String.eqb orientation "source" then panos_query.source_port s
  else panos_query.destination_port s.

(** [needle] occurs in [s]. *)
Definition occurs_in (needle s : string) : Prop :=
  exists before after : string, s = before ++ needle ++ after.

(** The seven individual profile parameters, each with the rule attribute
    it is meant for. *)
Definition individual_profiles : list (string * string) :=
  [("antivirus", "virus"); ("vulnerability", "vulnerability");
   ("spyware", "spyware"); ("url_filtering", "url_filtering");
   ("file_blocking", "file_blocking"); ("data_filtering", "data_filtering");
   ("wildfire_analysis", "wildfire_analysis")].

(** The attribute was never set on the rule. *)
Definition unset (security_rule : gmap string panos_add_rule.pyval)
  (attr : string) : bool :=
  match security_rule !! attr with
  | None => true
  | Some _ => false
  end.

(** ** Outcomes and counts *)

(** [main] of the query ended through [exit_json]. *)
Definition exits_with_result (e : panos_query.exit) : bool :=
  match e with
  | panos_query.ExitJson _ _ => true
  | _ => false
  end.

(** [main] of the query ended through the [return True] of the tag loop. *)
Definition returns_early (e : panos_query.exit) : bool :=
  match e with
  | panos_query.ReturnTrue => true
  | _ => false
  end.

(** A zone parameter is left out, or the zone list holds any or the zone it
    names. *)
Definition zone_listed (param : option string) (zones : list string) : bool :=
  match param with
  | Some zone =>
      if truthy param then str_in "any" zones || str_in zone zones else true
  | None => true
  end.

Definition zones_ok (p : panos_query.Params) (rule : panos_query.SecurityRule)
  : bool :=
  zone_listed (panos_query.source_zone_p p) (panos_query.fromzone rule)
  && zone_listed (panos_query.destination_zone_p p) (panos_query.tozone rule).

(** No address, port or tag criterion is supplied. *)
Definition zone_criteria_only (p : panos_query.Params) : bool :=
  negb (truthy (panos_query.source_ip_p p))
  && negb (truthy (panos_query.destination_ip_p p))
  && negb (truthy (panos_query.source_port_p p))
  && negb (truthy (panos_query.destination_port_p p))
  && negb (truthy (panos_query.tag_p p)).

(** The number of criteria a query supplies. *)
Definition supplied_count (p : panos_query.Params) : nat :=
  length
    (List.filter truthy
       [panos_query.source_zone_p p; panos_query.destination_zone_p p;
        panos_query.source_ip_p p; panos_query.destination_ip_p p;
        panos_query.source_port_p p; panos_query.destination_port_p p;
        panos_query.tag_p p]).

(** A name that the scope defines under none of the classes. *)
Definition undefined_in (kids : list panos_query.PanObject) (obj_name : string)
  (classes : list panos_query.class) : Prop :=
  forall o, In o kids -> panos_query.name o = obj_name ->
            ~ In (panos_query.class_of o) classes.

(** An object that a lookup over the classes may return for the name: it
    has the name and one of the classes, and is a child of the device, or,
    on a Panorama whose own children do not define the name, a child of
    the device group. *)
Definition resolved_from (device : panos_query.Device)
  (dev_group : option panos_query.DeviceGroup) (obj_name : string)
  (classes : list panos_query.class) (o : panos_query.PanObject) : Prop :=
  panos_query.name o = obj_name
  /\ In (panos_query.class_of o) classes
  /\ (In o (panos_query.children device)
      \/ (panos_query.is_panorama device = true
          /\ undefined_in (panos_query.children device) obj_name classes
          /\ exists g, dev_group = Some g /\ In o (panos_query.dg_children g))).

(** What a lookup answered, in the terms of the two scopes: an object
    resolved from them; False for a name that neither defines; an
    AttributeError on a Panorama without a device group, for a name its
    own children do not define. *)
Definition lookup_outcome (device : panos_query.Device)
  (dev_group : option panos_query.DeviceGroup) (answer : res panos_query.value)
  (obj_name : string) (classes : list panos_query.class) : Prop :=
  match answer with
  | Ok (panos_query.VObject o) => resolved_from device dev_group obj_name classes o
  | Ok panos_query.VFalse =>
      undefined_in (panos_query.children device) obj_name classes
      /\ (panos_query.is_panorama device = true ->
          exists g, dev_group = Some g
                    /\ undefined_in (panos_query.dg_children g) obj_name classes)
  | Ok (panos_query.VNetwork _) => False
  | Raise e =>
      e = AttributeError
      /\ panos_query.is_panorama device = true
      /\ dev_group = None
      /\ undefined_in (panos_query.children device) obj_name classes
  end.

(** The fifteen keywords the rule constructor reads, each with the rule
    attribute it becomes. *)
Definition required_attributes : list (string * string) :=
  [("rule_name", "name"); ("description", "description");
   ("to_zone", "tozone"); ("from_zone", "fromzone"); ("source", "source");
   ("source_user", "source_user"); ("destination", "destination");
   ("category", "category"); ("application", "application");
   ("service", "service"); ("hip_profiles", "hip_profiles");
   ("log_start", "log_start"); ("log_end", "log_end");
   ("rule_type", "type"); ("action", "action")].

(** The parameters of a query, the device group left out. *)
Definition query_without_group (p : panos_query.Params) : panos_query.Params := {|
  panos_query.source_zone_p := panos_query.source_zone_p p;
  panos_query.destination_zone_p := panos_query.destination_zone_p p;
  panos_query.source_ip_p := panos_query.source_ip_p p;
  panos_query.destination_ip_p := panos_query.destination_ip_p p;
  panos_query.source_port_p := panos_query.source_port_p p;
  panos_query.destination_port_p := panos_query.destination_port_p p;
  panos_query.protocol_p := panos_query.protocol_p p;
  panos_query.tag_p := panos_query.tag_p p;
  panos_query.devicegroup_p := None
|}.

(** The parameters of a rule creation, the device group left out. *)
Definition creation_without_group (p : panos_add_rule.Params)
  : panos_add_rule.Params := {|
  panos_add_rule.rule_name := panos_add_rule.rule_name p;
  panos_add_rule.description := panos_add_rule.description p;
  panos_add_rule.tag := panos_add_rule.tag p;
  panos_add_rule.to_zone := panos_add_rule.to_zone p;
  panos_add_rule.from_zone := panos_add_rule.from_zone p;
  panos_add_rule.source := panos_add_rule.source p;
  panos_add_rule.source_user := panos_add_rule.source_user p;
  panos_add_rule.destination := panos_add_rule.destination p;
  panos_add_rule.category := panos_add_rule.category p;
  panos_add_rule.application := panos_add_rule.application p;
  panos_add_rule.service := panos_add_rule.service p;
  panos_add_rule.hip_profiles := panos_add_rule.hip_profiles p;
  panos_add_rule.group_profile := panos_add_rule.group_profile p;
  panos_add_rule.antivirus := panos_add_rule.antivirus p;
  panos_add_rule.vulnerability := panos_add_rule.vulnerability p;
  panos_add_rule.spyware := panos_add_rule.spyware p;
  panos_add_rule.url_filtering := panos_add_rule.url_filtering p;
  panos_add_rule.file_blocking := panos_add_rule.file_blocking p;
  panos_add_rule.data_filtering := panos_add_rule.data_filtering p;
  panos_add_rule.wildfire_analysis := panos_add_rule.wildfire_analysis p;
  panos_add_rule.log_start := panos_add_rule.log_start p;
  panos_add_rule.log_end := panos_add_rule.log_end p;
  panos_add_rule.rule_type := panos_add_rule.rule_type p;
  panos_add_rule.action := panos_add_rule.action p;
  panos_add_rule.devicegroup := None
|}.

(** ** Fixtures *)

Module Fixtures.

Import panos_query.

(** A serialiser that writes the names of the rules, one per line. *)
Definition names_serializer : Serializer := {|
  document := string;
  element_str := fun hitbase =>
    String.concat (String "010" EmptyString) (map rule_name hitbase);
  xmltodict_parse := fun xml => xml;
  json_dumps := fun doc => doc
|}.

Definition no_params : Params := {|
  source_zone_p := None; destination_zone_p := None;
  source_ip_p := None; destination_ip_p := None;
  source_port_p := None; destination_port_p := None;
  protocol_p := None; tag_p := None; devicegroup_p := None
|}.

Definition rule (n : string) (addresses services tags : list string)
  : SecurityRule := {|
  rule_name := n;
  fromzone := ["trust"]; tozone := ["untrust"];
  source := addresses; destination := addresses;
  service := services; tag := tags; action := "allow"
|}.

Definition firewall (kids : list PanObject) (rulelist : list SecurityRule)
  : Device := {|
  device_kind := Firewall;
  children := kids;
  devices := [];
  rules := fun _ => rulelist
|}.

Definition panorama (kids : list PanObject) (groups : list managed)
  (rulelist : list SecurityRule) : Device := {|
  device_kind := Panorama;
  children := kids;
  devices := groups;
  rules := fun _ => rulelist
|}.

(** Protocol [tcp], destination ports [443,8000-8100]. *)
Definition web : ServiceObject := {|
  so_name := "web"; protocol := "tcp";
  source_port := "1024-65535"; destination_port := "443,8000-8100"
|}.

(** A destination-port spec with a bound that is not a number. *)
Definition odd : ServiceObject := {|
  so_name := "odd"; protocol := "tcp";
  source_port := "1024-65535"; destination_port := "80-http"
|}.

(** A destination-port spec whose second element has a bound that is not
    a number. *)
Definition mixed : ServiceObject := {|
  so_name := "mixed"; protocol := "tcp";
  source_port := "1024-65535"; destination_port := "443,80-http"
|}.

Definition pool : AddressObject := {|
  ao_name := "pool"; ao_type := "ip-range"; ao_value := "10.0.0.10-10.0.0.20"
|}.

Definition lan : AddressObject := {|
  ao_name := "lan"; ao_type := "ip-netmask"; ao_value := "10.0.0.0/24"
|}.

(** A service group with a member name that nothing defines. *)
Definition services : ServiceGroup := {|
  sg_name := "services"; sg_value := ["web"; "gone"]
|}.

Definition mail : Tag := {| tag_name := "mail" |}.

(** A manager that knows the device group DeviceGroupB only. *)
Definition manager : Device :=
  panorama []
    [ManagedFirewall "0001";
     ManagedGroup {| dg_name := "DeviceGroupB"; dg_children := [] |}]
    [].

Definition in_group (devicegroup : string) : Params := {|
  source_zone_p := Some "trust"; destination_zone_p := None;
  source_ip_p := None; destination_ip_p := None;
  source_port_p := None; destination_port_p := None;
  protocol_p := None; tag_p := None; devicegroup_p := Some devicegroup
|}.

(** The documented example [Allow HTTP w profile]: individual profiles and
    no profile group. *)
Definition with_profiles (devicegroup : option string) : panos_add_rule.Params := {|
  panos_add_rule.rule_name := "Allow HTTP w profile";
  panos_add_rule.description := "";
  panos_add_rule.tag := None;
  panos_add_rule.to_zone := ["any"];
  panos_add_rule.from_zone := ["any"];
  panos_add_rule.source := ["any"];
  panos_add_rule.source_user := ["any"];
  panos_add_rule.destination := ["any"];
  panos_add_rule.category := ["any"];
  panos_add_rule.application := ["any"];
  panos_add_rule.service := ["application-default"];
  panos_add_rule.hip_profiles := ["any"];
  panos_add_rule.group_profile := None;
  panos_add_rule.antivirus := Some "default";
  panos_add_rule.vulnerability := Some "default";
  panos_add_rule.spyware := Some "default";
  panos_add_rule.url_filtering := Some "default";
  panos_add_rule.file_blocking := None;
  panos_add_rule.data_filtering := None;
  panos_add_rule.wildfire_analysis := Some "default";
  panos_add_rule.log_start := false;
  panos_add_rule.log_end := true;
  panos_add_rule.rule_type := "universal";
  panos_add_rule.action := "allow";
  panos_add_rule.devicegroup := devicegroup
|}.

Definition creating_firewall : panos_add_rule.Device := {|
  panos_add_rule.device_kind := panos_add_rule.Firewall;
  panos_add_rule.devices := [];
  panos_add_rule.create_error := fun _ => None
|}.

Definition creating_manager : panos_add_rule.Device := {|
  panos_add_rule.device_kind := panos_add_rule.Panorama;
  panos_add_rule.devices :=
    [panos_add_rule.ManagedFirewall "0001";
     panos_add_rule.ManagedGroup "DeviceGroupB"];
  panos_add_rule.create_error := fun _ => None
|}.

End Fixtures.

(** ** Loops and splitting *)

Lemma for_each_app {A S : Type} (body : S -> A -> res S) (xs ys : list A) (s : S) :
  for_each body (xs ++ ys)%list s
  = res_bind (for_each body xs s) (for_each body ys).
Proof.
  revert s. induction xs as [|x xs IH]; intros s; simpl; [reflexivity|].
  destruct (body s x) as [s'|e]; simpl; [apply IH | reflexivity].
Qed.

(** A body that raises on one element, whatever the state, makes the whole
    loop raise: with no [break], the loop cannot end before it. *)
Lemma for_each_raises {A S : Type} (body : S -> A -> res S) (xs : list A) (x : A) :
  In x xs ->
  (forall s, exists e, body s x = Raise e) ->
  forall s, exists e, for_each body xs s = Raise e.
Proof.
  intros Hin Hx. induction xs as [|y ys IH]; [destruct Hin|].
  intros s. simpl. destruct Hin as [->|Hin].
  - destruct (Hx s) as [e ->]. exists e. reflexivity.
  - destruct (body s y) as [s'|e]; simpl; [apply IH, Hin | eauto].
Qed.

(** A string that holds the separator splits in two pieces at least. *)
Lemma split_two (c : ascii) (s : string) :
  char_in c s = true -> exists a b rest, split c s = a :: b :: rest.
Proof.
  induction s as [|d s IH]; simpl; [discriminate|].
  destruct (Ascii.eqb d c); simpl.
  - intros _. destruct s as [|d' s']; simpl; [eauto|].
    destruct (Ascii.eqb d' c); [eauto|].
    destruct (split c s') as [|w ws]; eauto.
  - intros H. destruct (IH H) as (a & b & rest & ->). eauto.
Qed.

Section PortTest.

Context {runtime : PyRuntime}.
Import panos_query.

Lemma port_in_spec_readable (s : ServiceObject) (port : string)
  (proto : option string) (xs : list string) :
  forallb (element_readable port) xs = true ->
  port_in_spec xs port proto (VObject (IsServiceObject s))
  = Ok (existsb (element_matches port proto s) xs).
Proof.
  induction xs as [|x xs IH]; simpl; [reflexivity|].
  intros H. apply andb_prop in H as [Hx Hxs]. rewrite (IH Hxs).
  unfold element_readable in Hx. unfold element_matches.
  destruct (char_in "-" x) eqn:Hdash.
  - destruct (split "-" x) as [|lo [|hi rest]]; try discriminate. simpl.
    destruct (int lo) as [lower|]; try discriminate.
    destruct (int hi) as [upper|]; try discriminate.
    destruct (int port) as [q|]; try discriminate. simpl.
    destruct ((lower <? q) && (q <? upper)); simpl;
      [destruct (protocol_eq (protocol s) proto)|]; reflexivity.
  - destruct (String.eqb port x); simpl;
      [destruct (protocol_eq (protocol s) proto)|]; reflexivity.
Qed.

End PortTest.

(** C6: on a Service Object the port test splits the port spec of the
    chosen orientation on commas; a range element matches a queried port
    strictly between its bounds, a single element matches the queried port
    by string equality, and either needs the protocol of the object to
    equal the queried one.  For protocol tcp and destination ports
    443,8000-8100: 443/tcp matches, 8050/tcp matches, 8050/udp does not,
    8101/tcp does not; the bound 8000 and the spelling 0443 do not
    either. *)
Theorem C6_port_in_svc_elements :
  (forall (runtime : PyRuntime) (s : panos_query.ServiceObject)
          (port : string) (proto : option string),
      (forallb (element_readable port)
         (split "," (panos_query.destination_port s)) = true ->
       panos_query.port_in_svc "destination" port proto
         (panos_query.VObject (panos_query.IsServiceObject s))
       = Ok (existsb (element_matches port proto s)
               (split "," (panos_query.destination_port s))))
      /\
      (forallb (element_readable port)
         (split "," (panos_query.source_port s)) = true ->
       panos_query.port_in_svc "source" port proto
         (panos_query.VObject (panos_query.IsServiceObject s))
       = Ok (existsb (element_matches port proto s)
               (split "," (panos_query.source_port s)))))
  /\
  (let test port proto :=
     @panos_query.port_in_svc ipv4_runtime "destination" port (Some proto)
       (panos_query.VObject (panos_query.IsServiceObject Fixtures.web)) in
   test "443" "tcp" = Ok true
   /\ test "8050" "tcp" = Ok true
   /\ test "8050" "udp" = Ok false
   /\ test "8101" "tcp" = Ok false
   /\ test "8000" "tcp" = Ok false
   /\ test "0443" "tcp" = Ok false).
Proof.
  split.
  - intros runtime s port proto. split; intros H.
    + unfold panos_query.port_in_svc. simpl. apply port_in_spec_readable, H.
    + unfold panos_query.port_in_svc. simpl. apply port_in_spec_readable, H.
  - repeat split; vm_compute; reflexivity.
Qed.

Lemma C6_port_in_svc_elements_witness :
  @panos_query.port_in_svc ipv4_runtime "destination" "8050" (Some "tcp")
    (panos_query.VObject (panos_query.IsServiceObject Fixtures.web))
  = Ok true.
Proof.
  exact (proj1 (proj1 C6_port_in_svc_elements ipv4_runtime Fixtures.web
                  "8050" (Some "tcp")) eq_refl).
Defined.

Section AddressTest.

Context {runtime : PyRuntime}.
Import panos_query.

(** The test on an [ip-range] object whose bounds and queried address all
    parse: two strict comparisons. *)
Lemma addr_in_obj_range (o : AddressObject) (addr lo hi : string)
  (rest : list string) (lower upper ip : IPAddress) :
  ao_type o = "ip-range" ->
  split "-" (ao_value o) = lo :: hi :: rest ->
  ip_address lo = Some lower ->
  ip_address hi = Some upper ->
  ip_address addr = Some ip ->
  addr_in_obj addr (VObject (IsAddressObject o))
  = res_bind (strictly_between lower ip upper)
      (fun inside => Ok inside).
Proof.
  intros Hty Hsplit Hlo Hhi Hip. unfold addr_in_obj.
  rewrite Hip, Hty, Hsplit. simpl. rewrite Hlo, Hhi. simpl.
  destruct (strictly_between lower ip upper) as [[|]|e]; reflexivity.
Qed.

End AddressTest.

(** C7: on an Address Object of kind ip-range the containment test is
    exclusive at both bounds: with bounds and queried address of one IP
    version, the test is true exactly for an address strictly between the
    bounds, so an address equal to the lower or to the upper bound does not
    match.  For 10.0.0.10-10.0.0.20: 10.0.0.10 and 10.0.0.20 do not match,
    10.0.0.15 matches. *)
Theorem C7_ip_range_bounds_exclusive :
  (forall (runtime : PyRuntime) (o : panos_query.AddressObject)
          (addr lo hi : string) (rest : list string)
          (lower upper ip : IPAddress),
      panos_query.ao_type o = "ip-range" ->
      split "-" (panos_query.ao_value o) = lo :: hi :: rest ->
      ip_address lo = Some lower ->
      ip_address hi = Some upper ->
      ip_address addr = Some ip ->
      ip_version lower = ip_version ip ->
      ip_version upper = ip_version ip ->
      let test :=
        panos_query.addr_in_obj addr
          (panos_query.VObject (panos_query.IsAddressObject o)) in
      test = Ok ((ip_int lower <? ip_int ip) && (ip_int ip <? ip_int upper))
      /\ (ip_int ip = ip_int lower -> test = Ok false)
      /\ (ip_int ip = ip_int upper -> test = Ok false)
      /\ (ip_int lower < ip_int ip < ip_int upper -> test = Ok true))
  /\
  (let test addr :=
     @panos_query.addr_in_obj ipv4_runtime addr
       (panos_query.VObject (panos_query.IsAddressObject Fixtures.pool)) in
   test "10.0.0.10" = Ok false
   /\ test "10.0.0.15" = Ok true
   /\ test "10.0.0.20" = Ok false).
Proof.
  split.
  - intros runtime o addr lo hi rest lower upper ip Hty Hsplit Hlo Hhi Hip Hv1 Hv2 test.
    assert (Htest : test
                    = Ok ((ip_int lower <? ip_int ip) && (ip_int ip <? ip_int upper))).
    { unfold test. rewrite (addr_in_obj_range o addr lo hi rest lower upper ip)
        by assumption.
      unfold panos_query.strictly_between, ip_lt.
      rewrite Hv1, Hv2, !Z.eqb_refl. simpl.
      destruct (ip_int lower <? ip_int ip); simpl; [|reflexivity].
      destruct (ip_int ip <? ip_int upper); reflexivity. }
    rewrite Htest. repeat split.
    + intros ->. rewrite Z.ltb_irrefl. reflexivity.
    + intros ->. rewrite Z.ltb_irrefl, andb_false_r. reflexivity.
    + intros [H1 H2]. apply Z.ltb_lt in H1, H2. rewrite H1, H2. reflexivity.
  - repeat split; vm_compute; reflexivity.
Qed.

Lemma C7_ip_range_bounds_exclusive_witness :
  @panos_query.addr_in_obj ipv4_runtime "10.0.0.10"
    (panos_query.VObject (panos_query.IsAddressObject Fixtures.pool))
  = Ok false.
Proof.
  refine (proj1 (proj2 (proj1 C7_ip_range_bounds_exclusive ipv4_runtime
            Fixtures.pool "10.0.0.10" "10.0.0.10" "10.0.0.20" []
            (mkIPAddress 4 167772170) (mkIPAddress 4 167772180)
            (mkIPAddress 4 167772170)
            eq_refl eq_refl eq_refl eq_refl eq_refl eq_refl eq_refl)) eq_refl).
Defined.

Section AddressCriterion.

Context {runtime : PyRuntime}.
Import panos_query.
Variable device : Device.
Variable dev_group : option DeviceGroup.

(** A name that resolves to nothing never changes the match flag, whether
    it parses as a network or not: the parsed network is neither an
    Address Object nor an Address Group. *)
Lemma address_step_unresolved (ip tok : string) (matched : bool) :
  get_object device dev_group tok = Ok VFalse ->
  address_step device dev_group ip matched tok = Ok matched.
Proof.
  intros H. unfold address_step. rewrite H. simpl.
  destruct (ip_network tok); reflexivity.
Qed.

Lemma ip_match_drops_unresolved (ip tok : string) (before after : list string) :
  get_object device dev_group tok = Ok VFalse ->
  tok <> "any" ->
  ip_match device dev_group ip (before ++ tok :: after)
  = ip_match device dev_group ip (before ++ after).
Proof.
  intros H Hany. unfold ip_match.
  assert (Hin : str_in "any" (before ++ tok :: after)
                = str_in "any" (before ++ after)).
  { induction before as [|b bs IH]; simpl.
    - destruct (String.eqb_spec tok "any"); [contradiction | reflexivity].
    - rewrite IH. reflexivity. }
  rewrite Hin. destruct (loose_match && str_in "any" (before ++ after));
    [reflexivity|].
  rewrite !for_each_app.
  destruct (for_each (address_step device dev_group ip) before false) as [m|e];
    simpl; [|reflexivity].
  rewrite (address_step_unresolved ip tok m H). reflexivity.
Qed.

End AddressCriterion.

(** C2, the code at the failing input: on a firewall without address
    objects, the rule source 10.0.0.0/24 parses as a network that holds the
    queried 10.0.0.5, yet the address criterion is false and the query ends
    with no matching rule; the same network as a named Address Object
    matches. *)
Theorem C2_literal_network_is_never_matched :
  let device := Fixtures.firewall [] [Fixtures.rule "r" ["10.0.0.0/24"] ["any"] []] in
  let named :=
    Fixtures.firewall [panos_query.IsAddressObject Fixtures.lan]
      [Fixtures.rule "r" ["lan"] ["any"] []] in
  let p := {|
    panos_query.source_zone_p := None; panos_query.destination_zone_p := None;
    panos_query.source_ip_p := Some "10.0.0.5";
    panos_query.destination_ip_p := None;
    panos_query.source_port_p := None; panos_query.destination_port_p := None;
    panos_query.protocol_p := None; panos_query.tag_p := None;
    panos_query.devicegroup_p := None |} in
  (exists net ip,
      Decimal.ip_network "10.0.0.0/24" = Some net
      /\ Decimal.ip_address "10.0.0.5" = Some ip
      /\ ip_in_net ip net = true)
  /\ @panos_query.get_object device None "10.0.0.0/24" = Ok panos_query.VFalse
  /\ @panos_query.ip_match ipv4_runtime device None "10.0.0.5" ["10.0.0.0/24"]
     = Ok false
  /\ snd (@panos_query.main ipv4_runtime Fixtures.names_serializer true device p)
     = panos_query.FailJson "No matching rules found."
  /\ @panos_query.ip_match ipv4_runtime named None "10.0.0.5" ["lan"] = Ok true.
Proof.
  repeat split; try (vm_compute; reflexivity).
  eexists _, _. repeat split; vm_compute; reflexivity.
Qed.

Section PortElements.

Context {runtime : PyRuntime}.
Import panos_query.

(** A single element is compared as a string and cannot raise. *)
Lemma port_in_spec_single (s : ServiceObject) (x port : string)
  (proto : option string) (rest : list string) :
  char_in "-" x = false ->
  port_in_spec (x :: rest) port proto (VObject (IsServiceObject s))
  = if String.eqb port x && protocol_eq (protocol s) proto then Ok true
    else port_in_spec rest port proto (VObject (IsServiceObject s)).
Proof.
  intros H. simpl. rewrite H.
  destruct (String.eqb port x); simpl;
    [destruct (protocol_eq (protocol s) proto)|]; reflexivity.
Qed.

(** A range element with a bound, or a queried port, that [int] cannot
    read raises [ValueError]. *)
Lemma port_in_spec_unreadable (obj : value) (x port : string)
  (proto : option string) (rest : list string) :
  char_in "-" x = true ->
  element_readable port x = false ->
  port_in_spec (x :: rest) port proto obj = Raise ValueError.
Proof.
  intros Hdash Hread. unfold element_readable in Hread. rewrite Hdash in Hread.
  destruct (split_two "-" x Hdash) as (lo & hi & tl & Hsplit).
  rewrite Hsplit in Hread. simpl. rewrite Hdash, Hsplit. simpl.
  destruct (int lo); simpl; [|reflexivity].
  destruct (int hi); simpl; [|reflexivity].
  destruct (int port); simpl; [discriminate | reflexivity].
Qed.

End PortElements.

(** C4 fails on a malformed port: with the Service Object odd, whose
    destination ports are 80-http, a query for destination port 80/tcp ends
    in an uncaught ValueError; so does a query for the port http against
    well-formed ranges. *)
Lemma C4_malformed_port_surfaces :
  let query port services kids :=
    snd (@panos_query.main ipv4_runtime Fixtures.names_serializer true
           (Fixtures.firewall kids [Fixtures.rule "r" ["any"] services []])
           {| panos_query.source_zone_p := None;
              panos_query.destination_zone_p := None;
              panos_query.source_ip_p := None;
              panos_query.destination_ip_p := None;
              panos_query.source_port_p := None;
              panos_query.destination_port_p := Some port;
              panos_query.protocol_p := Some "tcp";
              panos_query.tag_p := None;
              panos_query.devicegroup_p := None |}) in
  query "80" ["odd"] [panos_query.IsServiceObject Fixtures.odd]
  = panos_query.Uncaught ValueError
  /\ query "http" ["web"] [panos_query.IsServiceObject Fixtures.web]
     = panos_query.Uncaught ValueError.
Proof.
  split; vm_compute; reflexivity.
Qed.

Section ServiceCriterion.

Context {runtime : PyRuntime}.
Import panos_query.
Variable device : Device.
Variable dev_group : option DeviceGroup.

(** The port test reads the port spec before anything else: on a value
    that is not a Service Object the read fails. *)
Lemma port_in_svc_no_attribute (orientation port : string)
  (proto : option string) (obj : value) :
  is_orientation orientation ->
  is_service_object obj = false ->
  port_in_svc orientation port proto obj = Raise AttributeError.
Proof.
  intros [-> | ->] Hobj; unfold port_in_svc; simpl;
    destruct obj as [|[]|]; try discriminate; reflexivity.
Qed.

(** A top-level name that resolves to nothing is skipped. *)
Lemma service_step_unresolved (orientation port tok : string)
  (proto : option string) (matched : bool) :
  get_service device dev_group tok = Ok VFalse ->
  service_step device dev_group orientation port proto matched tok = Ok matched.
Proof.
  intros H. unfold service_step. rewrite H. reflexivity.
Qed.

(** A member that resolves to something other than a Service Object
    makes the member loop raise. *)
Lemma service_member_step_raises (orientation port member_string : string)
  (proto : option string) (member : value) (matched : bool) :
  is_orientation orientation ->
  get_service device dev_group member_string = Ok member ->
  is_service_object member = false ->
  service_member_step device dev_group orientation port proto matched member_string
  = Raise AttributeError.
Proof.
  intros Ho Hget Hobj. unfold service_member_step. rewrite Hget. simpl.
  rewrite (port_in_svc_no_attribute _ _ _ _ Ho Hobj). reflexivity.
Qed.

Lemma service_step_group_raises (orientation port tok member_string : string)
  (proto : option string) (g : ServiceGroup) (member : value) (matched : bool) :
  is_orientation orientation ->
  get_service device dev_group tok = Ok (VObject (IsServiceGroup g)) ->
  In member_string (sg_value g) ->
  get_service device dev_group member_string = Ok member ->
  is_service_object member = false ->
  exists e,
    service_step device dev_group orientation port proto matched tok = Raise e.
Proof.
  intros Ho Htok Hin Hget Hobj. unfold service_step. rewrite Htok. simpl.
  apply (for_each_raises _ _ member_string Hin).
  intros m. exists AttributeError.
  apply (service_member_step_raises _ _ _ _ member); assumption.
Qed.

Lemma port_match_group_raises (orientation port tok member_string : string)
  (proto : option string) (services : list string) (g : ServiceGroup)
  (member : value) :
  is_orientation orientation ->
  str_in "any" services = false ->
  str_in "application-default" services = false ->
  In tok services ->
  get_service device dev_group tok = Ok (VObject (IsServiceGroup g)) ->
  In member_string (sg_value g) ->
  get_service device dev_group member_string = Ok member ->
  is_service_object member = false ->
  exists e, port_match device dev_group orientation port proto services = Raise e.
Proof.
  intros Ho Hany Happ Hin Htok Hmem Hget Hobj. unfold port_match.
  rewrite Hany, Happ. simpl.
  apply (for_each_raises _ _ tok Hin). intros m.
  apply (service_step_group_raises _ _ _ member_string _ g member);
    assumption.
Qed.

End ServiceCriterion.

Section RuleLoop.

Context {runtime : PyRuntime}.
Import panos_query.
Variable device : Device.
Variable dev_group : option DeviceGroup.

(** A criterion is either left out, or tested on the value of its
    parameter. *)
Lemma criterion_cases (param : option string) (test : string -> res bool)
  (hitlist : list bool) :
  (truthy param = false /\ criterion param test hitlist = Ok hitlist)
  \/ (exists v, param = Some v /\ truthy param = true
                /\ criterion param test hitlist
                   = res_bind (test v) (fun m => Ok (hitlist ++ [m])%list)).
Proof.
  unfold criterion. destruct param as [v|]; [|left; split; reflexivity].
  destruct (truthy (Some v)) eqn:Ht.
  - right. exists v. repeat split.
  - left. split; reflexivity.
Qed.

Lemma criterion_absent (param : option string) (test : string -> res bool)
  (hitlist : list bool) :
  truthy param = false -> criterion param test hitlist = Ok hitlist.
Proof.
  intros H. destruct (criterion_cases param test hitlist) as [[_ ->]|(v & _ & Ht & _)];
    [reflexivity | congruence].
Qed.

Lemma criterion_raises (param : option string) (test : string -> res bool)
  (hitlist : list bool) :
  truthy param = true ->
  (forall v, exists e, test v = Raise e) ->
  exists e, criterion param test hitlist = Raise e.
Proof.
  intros H Htest.
  destruct (criterion_cases param test hitlist) as [[Ht _]|(v & _ & _ & ->)];
    [congruence|].
  destruct (Htest v) as [e ->]. exists e. reflexivity.
Qed.

(** With a port criterion supplied, a port test that raises on the
    services of a rule makes the criteria of that rule raise. *)
Lemma criteria_hitlist_port_raises (p : Params) (rule : SecurityRule) :
  truthy (source_port_p p) || truthy (destination_port_p p) = true ->
  (forall orientation port,
      is_orientation orientation ->
      exists e,
        port_match device dev_group orientation port (protocol_p p) (service rule)
        = Raise e) ->
  exists e, criteria_hitlist device dev_group p rule = Raise e.
Proof.
  intros Hsupplied Hraise. unfold criteria_hitlist.
  destruct (criterion (source_zone_p p) _ _) as [h1|e]; simpl; [|eauto].
  destruct (criterion (destination_zone_p p) _ _) as [h2|e]; simpl; [|eauto].
  destruct (criterion (source_ip_p p) _ _) as [h3|e]; simpl; [|eauto].
  destruct (criterion (destination_ip_p p) _ _) as [h4|e]; simpl; [|eauto].
  destruct (truthy (source_port_p p)) eqn:Hsrc.
  - destruct (criterion_raises (source_port_p p)
                (fun port => port_match device dev_group "source" port
                               (protocol_p p) (service rule)) h4 Hsrc) as [e ->].
    + intros v. apply Hraise. left. reflexivity.
    + exists e. reflexivity.
  - rewrite (criterion_absent (source_port_p p)) by assumption. simpl.
    simpl in Hsupplied.
    destruct (criterion_raises (destination_port_p p)
                (fun port => port_match device dev_group "destination" port
                               (protocol_p p) (service rule)) h4 Hsupplied)
      as [e ->].
    + intros v. apply Hraise. right. reflexivity.
    + exists e. reflexivity.
Qed.

Lemma rule_hitlist_raises (p : Params) (rule : SecurityRule) (e : exception) :
  criteria_hitlist device dev_group p rule = Raise e ->
  rule_hitlist device dev_group p rule = Raised e.
Proof.
  intros H. unfold rule_hitlist. rewrite H. reflexivity.
Qed.

(** Without a tag criterion no iteration returns from [main]. *)
Lemma rule_hitlist_no_tag (p : Params) (rule : SecurityRule) :
  truthy (tag_p p) = false ->
  rule_hitlist device dev_group p rule <> Return_True.
Proof.
  intros Ht. unfold rule_hitlist.
  destruct (criteria_hitlist device dev_group p rule); [|discriminate].
  destruct (tag_p p) as [t|]; [|discriminate].
  rewrite Ht. discriminate.
Qed.

Lemma rule_loop_raises (p : Params) (rule : SecurityRule)
  (rulelist : list SecurityRule) :
  truthy (tag_p p) = false ->
  In rule rulelist ->
  (exists e, rule_hitlist device dev_group p rule = Raised e) ->
  forall hitbase, exists e,
    rule_loop device dev_group p rulelist hitbase = Raised e.
Proof.
  intros Ht Hin [e He]. induction rulelist as [|r rs IH]; [destruct Hin|].
  intros hitbase. simpl. destruct Hin as [->|Hin].
  - rewrite He. eauto.
  - pose proof (rule_hitlist_no_tag p r Ht) as Hno.
    destruct (rule_hitlist device dev_group p r) as [hl| |e'];
      [apply IH, Hin | contradiction | eauto].
Qed.

(** Rules whose iteration runs to its end leave the loop running. *)
Lemma rule_loop_prefix (p : Params) (before rest : list SecurityRule) :
  Forall (fun r => exists hitlist,
              rule_hitlist device dev_group p r = Next hitlist) before ->
  forall hitbase, exists hitbase',
    rule_loop device dev_group p (before ++ rest) hitbase
    = rule_loop device dev_group p rest hitbase'.
Proof.
  induction 1 as [|r rs [hl Hr] _ IH]; intros hitbase; simpl; [eauto|].
  rewrite Hr. apply IH.
Qed.

(** A loop that runs to its end has collected the hits, in order. *)
Lemma rule_loop_collects (p : Params) (rulelist : list SecurityRule) :
  forall hitbase hits,
    rule_loop device dev_group p rulelist hitbase = Next hits ->
    hits = (hitbase ++ List.filter (rule_is_hit device dev_group p) rulelist)%list.
Proof.
  induction rulelist as [|r rs IH]; intros hitbase hits; simpl.
  - intros [= <-]. rewrite app_nil_r. reflexivity.
  - unfold rule_is_hit at 1.
    destruct (rule_hitlist device dev_group p r) as [hl| |e]; try discriminate.
    intros H. apply IH in H. rewrite H.
    destruct (is_hit hl); [rewrite <- app_assoc|]; reflexivity.
Qed.

(** The tag loop returns from [main] at the first tag that resolves to an
    object named like the queried tag. *)
Lemma tag_loop_returns (queried object_string : string)
  (before after : list string) (o : PanObject) :
  Forall (fun x => exists v, get_tag device dev_group x = Ok v) before ->
  get_tag device dev_group object_string = Ok (VObject o) ->
  name o = queried ->
  tag_loop device dev_group queried (before ++ object_string :: after)
  = Return_True.
Proof.
  intros Hbefore Hget Hname.
  induction Hbefore as [|x xs [v Hv] _ IH]; simpl.
  - rewrite Hget, Hname, String.eqb_refl. reflexivity.
  - rewrite Hv. destruct v as [|o'|n]; try exact IH.
    destruct (String.eqb (name o') queried); [reflexivity | exact IH].
Qed.

End RuleLoop.

Section QueryMain.

Import panos_query.
Context {runtime : PyRuntime} {serializer : Serializer}.

(** Once the libraries are there and the device group is validated, [main]
    is the query on the rulebase. *)
Lemma main_validated (device : Device) (p : Params)
  (dev_group : option DeviceGroup) (requests : list event) :
  main_devicegroup device p = (requests, inl dev_group) ->
  main true device p
  = ((RefreshObjects None :: requests) ++ fst (main_query device dev_group p),
     snd (main_query device dev_group p))%list.
Proof.
  intros H. unfold main. simpl. rewrite H.
  destruct (main_query device dev_group p). reflexivity.
Qed.

Lemma main_query_loop (device : Device) (p : Params)
  (dev_group : option DeviceGroup) (rulelist : list SecurityRule) :
  get_rulebase device dev_group = Some rulelist ->
  snd (main_query device dev_group p)
  = match rule_loop device dev_group p rulelist [] with
    | Next hitbase => main_dump hitbase rulelist
    | Return_True => ReturnTrue
    | Raised e => Uncaught e
    end.
Proof.
  intros H. unfold main_query. rewrite H. reflexivity.
Qed.

(** No device group of the manager has the name. *)
Lemma get_devicegroup_unknown (device : Device) (devicegroup : string) :
  (forall g, In (ManagedGroup g) (devices device) -> dg_name g <> devicegroup) ->
  get_devicegroup device devicegroup = None.
Proof.
  unfold get_devicegroup. induction (devices device) as [|[serial|g] rest IH];
    intros H; [reflexivity | |].
  - apply IH. intros g Hg. apply H. right. exact Hg.
  - destruct (String.eqb_spec (dg_name g) devicegroup) as [Heq|_].
    + exfalso. apply (H g); [left; reflexivity | exact Heq].
    + apply IH. intros g' Hg'. apply H. right. exact Hg'.
Qed.

Lemma criteria_hitlist_empty (device : Device) (dev_group : option DeviceGroup)
  (p : Params) (rule : SecurityRule) :
  no_criteria p = true ->
  criteria_hitlist device dev_group p rule = Ok [].
Proof.
  unfold no_criteria. intros H.
  repeat (apply andb_prop in H as [H ?]).
  repeat match goal with
         | Hn : negb _ = true |- _ => apply negb_true_iff in Hn
         end.
  unfold criteria_hitlist.
  repeat (rewrite criterion_absent by assumption; simpl).
  reflexivity.
Qed.

Lemma rule_hitlist_empty (device : Device) (dev_group : option DeviceGroup)
  (p : Params) (rule : SecurityRule) :
  no_criteria p = true ->
  rule_hitlist device dev_group p rule = Next [].
Proof.
  intros H. unfold rule_hitlist. rewrite (criteria_hitlist_empty _ _ _ _ H).
  unfold no_criteria in H. apply andb_prop in H as [_ Htag].
  apply negb_true_iff in Htag.
  destruct (tag_p p); [rewrite Htag|]; reflexivity.
Qed.

Lemma rule_loop_all_hits (device : Device) (dev_group : option DeviceGroup)
  (p : Params) (rulelist hitbase : list SecurityRule) :
  no_criteria p = true ->
  rule_loop device dev_group p rulelist hitbase = Next (hitbase ++ rulelist)%list.
Proof.
  intros H. revert hitbase.
  induction rulelist as [|r rs IH]; intros hitbase; simpl.
  - rewrite app_nil_r. reflexivity.
  - rewrite (rule_hitlist_empty _ _ _ _ H). simpl. rewrite IH, <- app_assoc.
    reflexivity.
Qed.

End QueryMain.

(** C9: with no zone, address, port or tag criterion supplied, the
    iteration of every rule ends with an empty hit list, which holds no
    False, so the rule is a hit; the loop over a rulebase collects every
    rule, in order. *)
Theorem C9_empty_criteria_every_rule_hits :
  forall (runtime : PyRuntime) (device : panos_query.Device)
         (dev_group : option panos_query.DeviceGroup) (p : panos_query.Params),
    no_criteria p = true ->
    (forall rule,
        panos_query.rule_hitlist device dev_group p rule = panos_query.Next []
        /\ panos_query.is_hit [] = true
        /\ rule_is_hit device dev_group p rule = true)
    /\ (forall rulelist,
           panos_query.rule_loop device dev_group p rulelist []
           = panos_query.Next rulelist).
Proof.
  intros runtime device dev_group p H. split.
  - intros rule. unfold rule_is_hit.
    rewrite (rule_hitlist_empty device dev_group p rule H). repeat split.
  - intros rulelist. apply (rule_loop_all_hits device dev_group p rulelist [] H).
Qed.

Lemma C9_empty_criteria_every_rule_hits_witness :
  let rulelist :=
    [Fixtures.rule "first" ["10.0.0.0/24"] ["web"] ["mail"];
     Fixtures.rule "second" ["any"] ["gone"] []] in
  @panos_query.rule_loop ipv4_runtime (Fixtures.firewall [] rulelist) None
    Fixtures.no_params rulelist []
  = panos_query.Next rulelist.
Proof.
  intros rulelist.
  exact (proj2 (C9_empty_criteria_every_rule_hits ipv4_runtime
                  (Fixtures.firewall [] rulelist) None Fixtures.no_params eq_refl)
           rulelist).
Defined.

(** The dump at the end of [main]: when the rule loop runs to its end, the
    hit rulebase holds the rules whose hit list has no False; the query
    fails with the message No matching rules found. exactly when that
    rulebase is empty, and otherwise exits with the JSON rendering of the
    parsed XML of the hit rulebase and the message n of m rules matched, n
    the number of hits and m the number of rules. *)
Lemma main_exit_by_hit_count :
  forall (runtime : PyRuntime) (serializer : panos_query.Serializer)
         (device : panos_query.Device) (p : panos_query.Params)
         (dev_group : option panos_query.DeviceGroup)
         (requests : list panos_query.event)
         (rulelist hitbase : list panos_query.SecurityRule),
    panos_query.main_devicegroup device p = (requests, inl dev_group) ->
    panos_query.get_rulebase device dev_group = Some rulelist ->
    panos_query.rule_loop device dev_group p rulelist [] = panos_query.Next hitbase ->
    let result := snd (panos_query.main true device p) in
    hitbase = List.filter (rule_is_hit device dev_group p) rulelist
    /\ (hitbase = [] <-> result = panos_query.FailJson "No matching rules found.")
    /\ (hitbase <> [] ->
        result
        = panos_query.ExitJson
            (panos_query.json_dumps
               (panos_query.xmltodict_parse (panos_query.element_str hitbase)))
            (str_of_nat (length hitbase) ++ " of " ++ str_of_nat (length rulelist)
             ++ " rules matched")).
Proof.
  intros runtime serializer device p dev_group requests rulelist hitbase
    Hdg Hrb Hloop result.
  assert (Hresult : result = panos_query.main_dump hitbase rulelist).
  { unfold result. rewrite (main_validated device p dev_group requests Hdg).
    simpl. rewrite (main_query_loop device p dev_group rulelist Hrb), Hloop.
    reflexivity. }
  rewrite Hresult. split; [|split].
  - apply (rule_loop_collects device dev_group p rulelist [] hitbase Hloop).
  - destruct hitbase; simpl; split; intros H; try reflexivity; discriminate.
  - destruct hitbase; [contradiction|reflexivity].
Qed.

Example one_of_two_rules_matched :
  let first := Fixtures.rule "first" ["any"] ["any"] [] in
  let second := Fixtures.rule "second" ["10.9.9.9"] ["any"] [] in
  let p := {|
    panos_query.source_zone_p := Some "trust";
    panos_query.destination_zone_p := None;
    panos_query.source_ip_p := Some "10.0.0.5";
    panos_query.destination_ip_p := None;
    panos_query.source_port_p := None; panos_query.destination_port_p := None;
    panos_query.protocol_p := None; panos_query.tag_p := None;
    panos_query.devicegroup_p := None |} in
  snd (@panos_query.main ipv4_runtime Fixtures.names_serializer true
         (Fixtures.firewall [] [first; second]) p)
  = panos_query.ExitJson "first" "1 of 2 rules matched".
Proof.
  intros first second p.
  refine (proj2 (proj2 (main_exit_by_hit_count ipv4_runtime Fixtures.names_serializer
                          (Fixtures.firewall [] [first; second]) p None []
                          [first; second] [first] eq_refl eq_refl eq_refl)) _).
  discriminate.
Qed.

(** C1: with a tag criterion supplied, when the rules before a rule run
    their iteration to its end, the other criteria of that rule raise
    nothing, and a tag name of the rule resolves to a Tag object named
    like the queried tag (the names before it resolving without an error),
    [main] returns True from inside the rule loop: it ends without a
    result, whatever rules come after. *)
Theorem C1_tag_match_returns_from_main :
  forall (runtime : PyRuntime) (serializer : panos_query.Serializer)
         (device : panos_query.Device) (p : panos_query.Params)
         (dev_group : option panos_query.DeviceGroup)
         (requests : list panos_query.event)
         (before after : list panos_query.SecurityRule)
         (rule : panos_query.SecurityRule) (hitlist : list bool)
         (queried object_string : string) (tags_before tags_after : list string)
         (t : panos_query.Tag),
    panos_query.main_devicegroup device p = (requests, inl dev_group) ->
    panos_query.get_rulebase device dev_group = Some (before ++ rule :: after)%list ->
    Forall (fun r => exists hl,
                panos_query.rule_hitlist device dev_group p r = panos_query.Next hl)
      before ->
    panos_query.criteria_hitlist device dev_group p rule = Ok hitlist ->
    panos_query.tag_p p = Some queried ->
    queried <> "" ->
    panos_query.tag rule = (tags_before ++ object_string :: tags_after)%list ->
    Forall (fun x => exists v, panos_query.get_tag device dev_group x = Ok v)
      tags_before ->
    panos_query.get_tag device dev_group object_string
    = Ok (panos_query.VObject (panos_query.IsTag t)) ->
    panos_query.tag_name t = queried ->
    panos_query.rule_hitlist device dev_group p rule = panos_query.Return_True
    /\ panos_query.main true device p
       = ((panos_query.RefreshObjects None :: requests)
            ++ [panos_query.RefreshRules],
          panos_query.ReturnTrue)%list.
Proof.
  intros runtime serializer device p dev_group requests before after rule hitlist
    queried object_string tags_before tags_after t
    Hdg Hrb Hbefore Hcriteria Htag Hne Htags Hresolve Hget Hname.
  assert (Hrule : panos_query.rule_hitlist device dev_group p rule
                  = panos_query.Return_True).
  { unfold panos_query.rule_hitlist. rewrite Hcriteria, Htag.
    assert (Ht : truthy (Some queried) = true).
    { simpl. destruct (String.eqb_spec queried ""); [contradiction|reflexivity]. }
    rewrite Ht, Htags.
    rewrite (tag_loop_returns device dev_group queried object_string
               tags_before tags_after (panos_query.IsTag t) Hresolve Hget Hname).
    reflexivity. }
  split; [exact Hrule|].
  rewrite (main_validated device p dev_group requests Hdg).
  unfold panos_query.main_query. rewrite Hrb. simpl. f_equal.
  destruct (rule_loop_prefix device dev_group p before (rule :: after) Hbefore [])
    as [hitbase ->].
  simpl. rewrite Hrule. reflexivity.
Qed.

Lemma C1_tag_match_returns_from_main_witness :
  let kids := [panos_query.IsTag Fixtures.mail] in
  let first := Fixtures.rule "first" ["any"] ["any"] [] in
  let second := Fixtures.rule "second" ["any"] ["any"] ["other"; "mail"] in
  let third := Fixtures.rule "third" ["any"] ["any"] ["mail"] in
  let p := {|
    panos_query.source_zone_p := Some "trust";
    panos_query.destination_zone_p := None;
    panos_query.source_ip_p := None; panos_query.destination_ip_p := None;
    panos_query.source_port_p := None; panos_query.destination_port_p := None;
    panos_query.protocol_p := None; panos_query.tag_p := Some "mail";
    panos_query.devicegroup_p := None |} in
  snd (@panos_query.main ipv4_runtime Fixtures.names_serializer true
         (Fixtures.firewall kids [first; second; third]) p)
  = panos_query.ReturnTrue.
Proof.
  intros kids first second third p.
  refine (f_equal snd
            (proj2 (C1_tag_match_returns_from_main ipv4_runtime
                      Fixtures.names_serializer
                      (Fixtures.firewall kids [first; second; third]) p None []
                      [first] [third] second [true] "mail" "mail" ["other"] []
                      Fixtures.mail eq_refl eq_refl _ eq_refl eq_refl _ eq_refl _
                      eq_refl eq_refl))).
  - repeat constructor. exists [true; false]. reflexivity.
  - discriminate.
  - repeat constructor. exists panos_query.VFalse. reflexivity.
Defined.

(** C5, the code at the failing input: on a firewall whose tag mail is
    defined, with one rule tagged mail, a query for the tag mail alone
    matches that tag, yet [main] neither exits with the rendering of the
    rule nor fails with No matching rules found.: it returns from the rule
    loop without a result, and the same happens when the tagged rule
    fails the zone criterion of the query.  A query for a tag that no rule
    carries fails with No matching rules found. *)
Theorem C5_tag_match_ends_without_result :
  let device tags :=
    Fixtures.firewall [panos_query.IsTag Fixtures.mail]
      [Fixtures.rule "tagged" ["any"] ["any"] tags] in
  let query zone tags :=
    snd (@panos_query.main ipv4_runtime Fixtures.names_serializer true
           (device tags)
           {| panos_query.source_zone_p := zone;
              panos_query.destination_zone_p := None;
              panos_query.source_ip_p := None;
              panos_query.destination_ip_p := None;
              panos_query.source_port_p := None;
              panos_query.destination_port_p := None;
              panos_query.protocol_p := None;
              panos_query.tag_p := Some "mail";
              panos_query.devicegroup_p := None |}) in
  @panos_query.get_tag (device ["mail"]) None "mail"
  = Ok (panos_query.VObject (panos_query.IsTag Fixtures.mail))
  /\ query None ["mail"] = panos_query.ReturnTrue
  /\ query (Some "dmz") ["mail"] = panos_query.ReturnTrue
  /\ query None [] = panos_query.FailJson "No matching rules found.".
Proof.
  repeat split; vm_compute; reflexivity.
Qed.

(** C10: in the port criterion a service name that resolves to nothing is
    skipped without an error.  The port test reads the port spec of what it
    is given before anything else, so it raises AttributeError on a value
    that is not a Service Object; the members of a Service Group are
    handed to it as resolved.  Hence, with a port criterion supplied (and
    no tag criterion), a rule whose services hold neither any nor
    application-default but a Service Group with a member name that
    resolves to nothing makes the whole query end in an uncaught
    exception. *)
Theorem C10_unresolved_group_member_raises :
  forall (runtime : PyRuntime) (serializer : panos_query.Serializer)
         (device : panos_query.Device)
         (dev_group : option panos_query.DeviceGroup),
    (forall (orientation port tok : string) (proto : option string)
            (matched : bool),
        panos_query.get_service device dev_group tok = Ok panos_query.VFalse ->
        panos_query.service_step device dev_group orientation port proto matched tok
        = Ok matched)
    /\
    (forall (orientation port : string) (proto : option string),
        is_orientation orientation ->
        panos_query.port_in_svc orientation port proto panos_query.VFalse
        = Raise AttributeError)
    /\
    (forall (p : panos_query.Params) (requests : list panos_query.event)
            (rulelist : list panos_query.SecurityRule)
            (rule : panos_query.SecurityRule) (tok member_string : string)
            (g : panos_query.ServiceGroup),
        panos_query.main_devicegroup device p = (requests, inl dev_group) ->
        panos_query.get_rulebase device dev_group = Some rulelist ->
        In rule rulelist ->
        truthy (panos_query.source_port_p p)
        || truthy (panos_query.destination_port_p p) = true ->
        truthy (panos_query.tag_p p) = false ->
        str_in "any" (panos_query.service rule) = false ->
        str_in "application-default" (panos_query.service rule) = false ->
        In tok (panos_query.service rule) ->
        panos_query.get_service device dev_group tok
        = Ok (panos_query.VObject (panos_query.IsServiceGroup g)) ->
        In member_string (panos_query.sg_value g) ->
        panos_query.get_service device dev_group member_string
        = Ok panos_query.VFalse ->
        exists e,
          snd (panos_query.main true device p) = panos_query.Uncaught e).
Proof.
  intros runtime serializer device dev_group. split; [|split].
  - intros orientation port tok proto matched H.
    apply service_step_unresolved, H.
  - intros orientation port proto Ho.
    apply port_in_svc_no_attribute; [exact Ho | reflexivity].
  - intros p requests rulelist rule tok member_string g
      Hdg Hrb Hrule Hport Htag Hany Happ Htok Hgroup Hmember Hgone.
    rewrite (main_validated device p dev_group requests Hdg). simpl.
    rewrite (main_query_loop device p dev_group rulelist Hrb).
    destruct (rule_loop_raises device dev_group p rule rulelist Htag Hrule)
      with (hitbase := @nil panos_query.SecurityRule) as [e ->].
    + destruct (criteria_hitlist_port_raises device dev_group p rule Hport)
        as [e He].
      * intros orientation port Ho.
        apply (port_match_group_raises device dev_group orientation port tok
                 member_string (panos_query.protocol_p p)
                 (panos_query.service rule) g panos_query.VFalse);
          try assumption; reflexivity.
      * exists e. apply rule_hitlist_raises, He.
    + exists e. reflexivity.
Qed.

Lemma C10_unresolved_group_member_raises_witness :
  let kids :=
    [panos_query.IsServiceObject Fixtures.web;
     panos_query.IsServiceGroup Fixtures.services] in
  let rulelist :=
    [Fixtures.rule "first" ["any"] ["any"] [];
     Fixtures.rule "second" ["any"] ["services"] []] in
  let p := {|
    panos_query.source_zone_p := None; panos_query.destination_zone_p := None;
    panos_query.source_ip_p := None; panos_query.destination_ip_p := None;
    panos_query.source_port_p := None;
    panos_query.destination_port_p := Some "443";
    panos_query.protocol_p := Some "tcp"; panos_query.tag_p := None;
    panos_query.devicegroup_p := None |} in
  exists e,
    snd (@panos_query.main ipv4_runtime Fixtures.names_serializer true
           (Fixtures.firewall kids rulelist) p)
    = panos_query.Uncaught e.
Proof.
  intros kids rulelist p.
  refine (proj2 (proj2 (C10_unresolved_group_member_raises ipv4_runtime
                          Fixtures.names_serializer
                          (Fixtures.firewall kids rulelist) None))
            p [] rulelist (Fixtures.rule "second" ["any"] ["services"] [])
            "services" "gone" Fixtures.services
            eq_refl eq_refl _ eq_refl eq_refl eq_refl eq_refl _ eq_refl _ eq_refl).
  - right. left. reflexivity.
  - left. reflexivity.
  - right. left. reflexivity.
Defined.

(** The same query, evaluated: the exception is the AttributeError of the
    port test, although the member before the missing one matches the
    port. *)
Example unresolved_member_AttributeError :
  snd (@panos_query.main ipv4_runtime Fixtures.names_serializer true
         (Fixtures.firewall
            [panos_query.IsServiceObject Fixtures.web;
             panos_query.IsServiceGroup Fixtures.services]
            [Fixtures.rule "second" ["any"] ["services"] []])
         {| panos_query.source_zone_p := None;
            panos_query.destination_zone_p := None;
            panos_query.source_ip_p := None;
            panos_query.destination_ip_p := None;
            panos_query.source_port_p := None;
            panos_query.destination_port_p := Some "443";
            panos_query.protocol_p := Some "tcp";
            panos_query.tag_p := None;
            panos_query.devicegroup_p := None |})
  = panos_query.Uncaught AttributeError.
Proof. vm_compute. reflexivity. Qed.

(** ** A malformed range element that the port test reaches *)

Section ReachedElement.

Import panos_query.
Context {runtime : PyRuntime}.

(** The loop over a port spec, cut in two: the second part is read only
    when the first part has returned [False]. *)
Lemma port_in_spec_app (xs ys : list string) (port : string)
  (proto : option string) (obj : value) :
  port_in_spec (xs ++ ys) port proto obj
  = match port_in_spec xs port proto obj with
    | Ok true => Ok true
    | Ok false => port_in_spec ys port proto obj
    | Raise e => Raise e
    end.
Proof.
  induction xs as [|x xs IH]; [reflexivity|].
  cbn [app port_in_spec]. rewrite IH.
  match goal with
  | |- res_bind ?h _ = _ => destruct h as [[|]|e]; reflexivity
  end.
Qed.

Lemma port_in_spec_matched_before (s : ServiceObject) (port : string)
  (proto : option string) (before rest : list string) :
  forallb (element_readable port) before = true ->
  existsb (element_matches port proto s) before = true ->
  port_in_spec (before ++ rest) port proto (VObject (IsServiceObject s))
  = Ok true.
Proof.
  intros Hread Hsome.
  rewrite port_in_spec_app, (port_in_spec_readable s port proto before Hread),
    Hsome.
  reflexivity.
Qed.

Lemma port_in_spec_reached (s : ServiceObject) (port x : string)
  (proto : option string) (before rest : list string) :
  forallb (element_readable port) before = true ->
  existsb (element_matches port proto s) before = false ->
  char_in "-" x = true ->
  element_readable port x = false ->
  port_in_spec (before ++ x :: rest) port proto (VObject (IsServiceObject s))
  = Raise ValueError.
Proof.
  intros Hread Hnone Hdash Hx.
  rewrite port_in_spec_app, (port_in_spec_readable s port proto before Hread),
    Hnone.
  apply port_in_spec_unreadable; assumption.
Qed.

Lemma port_in_svc_spec (s : ServiceObject) (orientation port : string)
  (proto : option string) :
  is_orientation orientation ->
  port_in_svc orientation port proto (VObject (IsServiceObject s))
  = port_in_spec (split "," (port_spec orientation s)) port proto
      (VObject (IsServiceObject s)).
Proof.
  intros [->| ->]; reflexivity.
Qed.

Context (device : Device) (dev_group : option DeviceGroup).

Lemma service_step_raises (orientation port tok : string)
  (proto : option string) (s : ServiceObject) (e : exception) :
  get_service device dev_group tok = Ok (VObject (IsServiceObject s)) ->
  port_in_svc orientation port proto (VObject (IsServiceObject s)) = Raise e ->
  forall matched,
    service_step device dev_group orientation port proto matched tok = Raise e.
Proof.
  intros Hget Hraise matched. unfold service_step.
  rewrite Hget. cbn [res_bind]. rewrite Hraise. reflexivity.
Qed.

Lemma port_match_object_raises (orientation port tok : string)
  (proto : option string) (services : list string) (s : ServiceObject)
  (e : exception) :
  str_in "any" services = false ->
  str_in "application-default" services = false ->
  In tok services ->
  get_service device dev_group tok = Ok (VObject (IsServiceObject s)) ->
  port_in_svc orientation port proto (VObject (IsServiceObject s)) = Raise e ->
  exists e', port_match device dev_group orientation port proto services
             = Raise e'.
Proof.
  intros Hany Happ Hin Hget Hraise. unfold port_match.
  rewrite Hany, Happ. simpl.
  apply (for_each_raises _ _ tok Hin). intros m. exists e.
  apply (service_step_raises _ _ _ _ s); assumption.
Qed.

(** A supplied port criterion whose test raises ends the hit list, whatever
    the criteria before it gave. *)
Lemma criteria_hitlist_one_port_raises (p : Params) (rule : SecurityRule)
  (orientation port : string) :
  is_orientation orientation ->
  port_param orientation p = Some port ->
  truthy (Some port) = true ->
  (exists e,
      port_match device dev_group orientation port (protocol_p p) (service rule)
      = Raise e) ->
  exists e, criteria_hitlist device dev_group p rule = Raise e.
Proof.
  intros Ho Hparam Htruthy [e He]. unfold criteria_hitlist.
  destruct (criterion (source_zone_p p) _ _) as [h1|e1]; simpl; [|eauto].
  destruct (criterion (destination_zone_p p) _ _) as [h2|e2]; simpl; [|eauto].
  destruct (criterion (source_ip_p p) _ _) as [h3|e3]; simpl; [|eauto].
  destruct (criterion (destination_ip_p p) _ _) as [h4|e4]; simpl; [|eauto].
  destruct Ho as [->| ->]; unfold port_param in Hparam; simpl in Hparam.
  - rewrite Hparam. unfold criterion at 1. rewrite Htruthy, He.
    exists e. reflexivity.
  - destruct (criterion (source_port_p p) _ _) as [h5|e5]; simpl; [|eauto].
    rewrite Hparam. unfold criterion. rewrite Htruthy, He.
    exists e. reflexivity.
Qed.

End ReachedElement.

(** C4, as the code has it.  An address token that resolves to no object
    and does not parse as a network leaves the match flag as it was and
    raises nothing.  The elements of a port spec are read from left to
    right until one matches.  An element without a dash raises nothing: it
    is compared with the queried port as a string, matches when both are
    spelled the same and the protocol is the queried one, and is passed
    over otherwise.  As long as the elements read so far are readable, a
    match among them ends the test with True, whatever follows; when none
    of them matches and the next element is a range whose bound or whose
    queried port is not an integer, the port test raises ValueError.  That
    exception is caught nowhere: when the port criterion of that
    orientation is supplied and no tag is queried, and a rule without any
    and application-default lists a name that resolves to such a Service
    Object, main ends with an uncaught exception and no result. *)
Theorem C4_malformed_literals_amended :
  forall (runtime : PyRuntime) (serializer : panos_query.Serializer)
         (device : panos_query.Device)
         (dev_group : option panos_query.DeviceGroup),
    (forall (ip tok : string) (matched : bool),
        panos_query.get_object device dev_group tok = Ok panos_query.VFalse ->
        ip_network tok = None ->
        panos_query.address_step device dev_group ip matched tok = Ok matched)
    /\
    (forall (s : panos_query.ServiceObject) (x port : string)
            (proto : option string) (rest : list string),
        char_in "-" x = false ->
        let obj := panos_query.VObject (panos_query.IsServiceObject s) in
        panos_query.port_in_spec (x :: rest) port proto obj
        = if String.eqb port x
             && panos_query.protocol_eq (panos_query.protocol s) proto
          then Ok true
          else panos_query.port_in_spec rest port proto obj)
    /\
    (forall (s : panos_query.ServiceObject) (orientation port : string)
            (proto : option string) (before rest : list string),
        is_orientation orientation ->
        split "," (port_spec orientation s) = (before ++ rest)%list ->
        forallb (element_readable port) before = true ->
        existsb (element_matches port proto s) before = true ->
        panos_query.port_in_svc orientation port proto
          (panos_query.VObject (panos_query.IsServiceObject s))
        = Ok true)
    /\
    (forall (s : panos_query.ServiceObject) (orientation port x : string)
            (proto : option string) (before rest : list string),
        is_orientation orientation ->
        split "," (port_spec orientation s) = (before ++ x :: rest)%list ->
        forallb (element_readable port) before = true ->
        existsb (element_matches port proto s) before = false ->
        char_in "-" x = true ->
        element_readable port x = false ->
        panos_query.port_in_svc orientation port proto
          (panos_query.VObject (panos_query.IsServiceObject s))
        = Raise ValueError)
    /\
    (forall (p : panos_query.Params) (requests : list panos_query.event)
            (rulelist : list panos_query.SecurityRule)
            (rule : panos_query.SecurityRule) (s : panos_query.ServiceObject)
            (orientation port tok x : string) (before rest : list string),
        panos_query.main_devicegroup device p = (requests, inl dev_group) ->
        panos_query.get_rulebase device dev_group = Some rulelist ->
        In rule rulelist ->
        is_orientation orientation ->
        port_param orientation p = Some port ->
        truthy (Some port) = true ->
        truthy (panos_query.tag_p p) = false ->
        str_in "any" (panos_query.service rule) = false ->
        str_in "application-default" (panos_query.service rule) = false ->
        In tok (panos_query.service rule) ->
        panos_query.get_service device dev_group tok
        = Ok (panos_query.VObject (panos_query.IsServiceObject s)) ->
        split "," (port_spec orientation s) = (before ++ x :: rest)%list ->
        forallb (element_readable port) before = true ->
        existsb (element_matches port (panos_query.protocol_p p) s) before
        = false ->
        char_in "-" x = true ->
        element_readable port x = false ->
        exists e,
          snd (panos_query.main true device p) = panos_query.Uncaught e).
Proof.
  intros runtime serializer device dev_group. repeat apply conj.
  - intros ip tok matched H _. apply address_step_unresolved, H.
  - intros s x port proto rest H. apply port_in_spec_single, H.
  - intros s orientation port proto before rest Ho Hspec Hread Hsome.
    rewrite (port_in_svc_spec s orientation port proto Ho), Hspec.
    apply port_in_spec_matched_before; assumption.
  - intros s orientation port x proto before rest Ho Hspec Hread Hnone Hdash Hx.
    rewrite (port_in_svc_spec s orientation port proto Ho), Hspec.
    apply port_in_spec_reached; assumption.
  - intros p requests rulelist rule s orientation port tok x before rest
      Hdg Hrb Hrule Ho Hparam Htruthy Htag Hany Happ Htok Hget Hspec
      Hread Hnone Hdash Hx.
    rewrite (main_validated device p dev_group requests Hdg). cbn [snd].
    rewrite (main_query_loop device p dev_group rulelist Hrb).
    destruct (rule_loop_raises device dev_group p rule rulelist Htag Hrule)
      with (hitbase := @nil panos_query.SecurityRule) as [e ->].
    + destruct (criteria_hitlist_one_port_raises device dev_group p rule
                  orientation port Ho Hparam Htruthy) as [e He].
      * apply (port_match_object_raises device dev_group orientation port tok
                 (panos_query.protocol_p p) (panos_query.service rule) s
                 ValueError Hany Happ Htok Hget).
        rewrite (port_in_svc_spec s orientation port _ Ho), Hspec.
        apply port_in_spec_reached; assumption.
      * exists e. apply rule_hitlist_raises, He.
    + exists e. reflexivity.
Qed.

Lemma C4_malformed_literals_amended_witness :
  let device :=
    Fixtures.firewall [panos_query.IsServiceObject Fixtures.mixed]
      [Fixtures.rule "r" ["any"] ["mixed"] []] in
  let query port := {|
    panos_query.source_zone_p := None; panos_query.destination_zone_p := None;
    panos_query.source_ip_p := None; panos_query.destination_ip_p := None;
    panos_query.source_port_p := None;
    panos_query.destination_port_p := Some port;
    panos_query.protocol_p := Some "tcp"; panos_query.tag_p := None;
    panos_query.devicegroup_p := None |} in
  let obj := panos_query.VObject (panos_query.IsServiceObject Fixtures.mixed) in
  @panos_query.address_step ipv4_runtime device None
    "10.0.0.5" false "not-an-address" = Ok false
  /\ @panos_query.port_in_svc ipv4_runtime "destination" "443" (Some "tcp") obj
     = Ok true
  /\ @panos_query.port_in_svc ipv4_runtime "destination" "8443" (Some "tcp") obj
     = Raise ValueError
  /\ exists e,
       snd (@panos_query.main ipv4_runtime Fixtures.names_serializer true
              device (query "8443"))
       = panos_query.Uncaught e.
Proof.
  intros device query obj.
  pose proof (C4_malformed_literals_amended ipv4_runtime
                Fixtures.names_serializer device None)
    as (Haddress & _ & Hmatched & Hreached & Hmain).
  repeat apply conj.
  - exact (Haddress "10.0.0.5" "not-an-address" false eq_refl eq_refl).
  - exact (Hmatched Fixtures.mixed "destination" "443" (Some "tcp")
             ["443"] ["80-http"] (or_intror eq_refl) eq_refl eq_refl eq_refl).
  - exact (Hreached Fixtures.mixed "destination" "8443" "80-http" (Some "tcp")
             ["443"] [] (or_intror eq_refl) eq_refl eq_refl eq_refl eq_refl
             eq_refl).
  - exact (Hmain (query "8443") [] [Fixtures.rule "r" ["any"] ["mixed"] []]
             (Fixtures.rule "r" ["any"] ["mixed"] []) Fixtures.mixed
             "destination" "8443" "mixed" "80-http" ["443"] []
             eq_refl eq_refl (or_introl eq_refl) (or_intror eq_refl)
             eq_refl eq_refl eq_refl eq_refl eq_refl (or_introl eq_refl)
             eq_refl eq_refl eq_refl eq_refl eq_refl eq_refl).
Defined.

(** The two sides of the amended claim, evaluated on [main]: a port that an
    earlier element matches gives a result although a malformed range
    element follows, and an element that is no number matches the query
    spelled the same way. *)
Example malformed_element_not_reached :
  let query port spec :=
    snd (@panos_query.main ipv4_runtime Fixtures.names_serializer true
           (Fixtures.firewall
              [panos_query.IsServiceObject
                 {| panos_query.so_name := "svc"; panos_query.protocol := "tcp";
                    panos_query.source_port := "1024-65535";
                    panos_query.destination_port := spec |}]
              [Fixtures.rule "r" ["any"] ["svc"] []])
           {| panos_query.source_zone_p := None;
              panos_query.destination_zone_p := None;
              panos_query.source_ip_p := None;
              panos_query.destination_ip_p := None;
              panos_query.source_port_p := None;
              panos_query.destination_port_p := Some port;
              panos_query.protocol_p := Some "tcp";
              panos_query.tag_p := None;
              panos_query.devicegroup_p := None |}) in
  query "443" "443,80-http" = panos_query.ExitJson "r" "1 of 1 rules matched"
  /\ query "http" "http" = panos_query.ExitJson "r" "1 of 1 rules matched"
  /\ query "8443" "443,80-http" = panos_query.Uncaught ValueError.
Proof.
  repeat split; vm_compute; reflexivity.
Qed.

Section DeviceGroups.

Import panos_add_rule.

Lemma devicegroup_exists_unknown (device : Device) (devicegroup : string) :
  (forall n, In (ManagedGroup n) (devices device) -> n <> devicegroup) ->
  devicegroup_exists device (Some devicegroup) = false.
Proof.
  unfold devicegroup_exists. induction (devices device) as [|[serial|n] rest IH];
    intros H; [reflexivity | |].
  - apply IH. intros n Hn. apply H. right. exact Hn.
  - destruct (String.eqb_spec n devicegroup) as [Heq|_].
    + exfalso. apply (H n); [left; reflexivity | exact Heq].
    + apply IH. intros n' Hn'. apply H. right. exact Hn'.
Qed.

End DeviceGroups.

Lemma occurs_in_quoted (devicegroup : string) :
  occurs_in devicegroup (device_group_not_found devicegroup).
Proof.
  exists "'", "' device group not found in Panorama. Is the name correct?".
  reflexivity.
Qed.

(** C8: on a Panorama, a supplied device-group name that is the name of
    none of the manager's device groups makes both modules fail with the
    message that the name is not found, which holds the name.  The query
    has then asked the device for its objects and its device groups only,
    never for a rulebase; the rule creation has asked for the device
    groups only, and created nothing. *)
Theorem C8_device_group_not_found :
  forall (devicegroup : string),
    occurs_in devicegroup (device_group_not_found devicegroup)
    /\
    (forall (runtime : PyRuntime) (serializer : panos_query.Serializer)
            (device : panos_query.Device) (p : panos_query.Params),
        panos_query.is_panorama device = true ->
        panos_query.devicegroup_p p = Some devicegroup ->
        devicegroup <> "" ->
        (forall g, In (panos_query.ManagedGroup g) (panos_query.devices device) ->
                   panos_query.dg_name g <> devicegroup) ->
        panos_query.main true device p
        = ([panos_query.RefreshObjects None; panos_query.RefreshDevices],
           panos_query.FailJson (device_group_not_found devicegroup))
        /\ ~ In panos_query.RefreshRules (fst (panos_query.main true device p)))
    /\
    (forall (device : panos_add_rule.Device) (p : panos_add_rule.Params),
        panos_add_rule.is_panorama device = true ->
        panos_add_rule.devicegroup p = Some devicegroup ->
        (forall n, In (panos_add_rule.ManagedGroup n)
                     (panos_add_rule.devices device) ->
                   n <> devicegroup) ->
        panos_add_rule.main true device p
        = ([panos_add_rule.RefreshDevices],
           panos_add_rule.FailJson (device_group_not_found devicegroup))
        /\ forall rule,
             ~ In (panos_add_rule.Create rule)
                 (fst (panos_add_rule.main true device p))).
Proof.
  intros devicegroup. split; [apply occurs_in_quoted|]. split.
  - intros runtime serializer device p Hpan Hdg Hne Hunknown.
    assert (Hmain : panos_query.main true device p
                    = ([panos_query.RefreshObjects None; panos_query.RefreshDevices],
                       panos_query.FailJson (device_group_not_found devicegroup))).
    { unfold panos_query.main, panos_query.main_devicegroup.
      change (negb true) with false. cbv beta iota. rewrite Hdg, Hpan.
      assert (Ht : truthy (Some devicegroup) = true).
      { simpl. destruct (String.eqb_spec devicegroup "");
          [contradiction|reflexivity]. }
      rewrite Ht.
      rewrite (get_devicegroup_unknown device devicegroup Hunknown). reflexivity. }
    split; [exact Hmain|].
    rewrite Hmain. cbn [fst In]. intros [H|[H|[]]]; discriminate.
  - intros device p Hpan Hdg Hunknown.
    assert (Hmain : panos_add_rule.main true device p
                    = ([panos_add_rule.RefreshDevices],
                       panos_add_rule.FailJson (device_group_not_found devicegroup))).
    { unfold panos_add_rule.main.
      change (negb true) with false. cbv beta iota. rewrite Hpan, Hdg.
      rewrite (devicegroup_exists_unknown device devicegroup Hunknown).
      reflexivity. }
    split; [exact Hmain|].
    intros rule. rewrite Hmain. cbn [fst In]. intros [H|[]]. discriminate.
Qed.

Lemma C8_device_group_not_found_witness :
  @panos_query.main ipv4_runtime Fixtures.names_serializer true
    Fixtures.manager (Fixtures.in_group "DeviceGroupA")
  = ([panos_query.RefreshObjects None; panos_query.RefreshDevices],
     panos_query.FailJson
       "'DeviceGroupA' device group not found in Panorama. Is the name correct?")
  /\
  panos_add_rule.main true Fixtures.creating_manager
    (Fixtures.with_profiles (Some "DeviceGroupA"))
  = ([panos_add_rule.RefreshDevices],
     panos_add_rule.FailJson
       "'DeviceGroupA' device group not found in Panorama. Is the name correct?").
Proof.
  split.
  - refine (proj1 (proj1 (proj2 (C8_device_group_not_found "DeviceGroupA"))
                     ipv4_runtime Fixtures.names_serializer Fixtures.manager
                     (Fixtures.in_group "DeviceGroupA") eq_refl eq_refl _ _)).
    + discriminate.
    + intros g [H|[H|[]]]; [discriminate|]. injection H as <-. discriminate.
  - refine (proj1 (proj2 (proj2 (C8_device_group_not_found "DeviceGroupA"))
                     Fixtures.creating_manager
                     (Fixtures.with_profiles (Some "DeviceGroupA"))
                     eq_refl eq_refl _)).
    intros n [H|[H|[]]]; [discriminate|]. injection H as <-. discriminate.
Defined.

Section RuleCreation.

Import panos_add_rule.

Lemma set_if_in_other (kwargs security_rule : gmap string pyval)
  (key attr other : string) :
  attr <> other ->
  set_if_in kwargs key attr security_rule !! other = security_rule !! other.
Proof.
  intros H. unfold set_if_in. destruct (kwargs !! key); [|reflexivity].
  apply lookup_insert_ne, H.
Qed.

Lemma set_if_in_lookup (kwargs security_rule : gmap string pyval)
  (key attr : string) :
  set_if_in kwargs key attr security_rule !! attr
  = match kwargs !! key with
    | Some v => Some v
    | None => security_rule !! attr
    end.
Proof.
  unfold set_if_in. destruct (kwargs !! key); [apply lookup_insert_eq | reflexivity].
Qed.

Ltac required_keys H :=
  unfold create_security_rule in H;
  repeat match type of H with
         | res_bind (getitem ?k ?x) _ = _ =>
             destruct (getitem k x); cbn [res_bind] in H; [|discriminate]
         end.

Ltac attribute_lookup :=
  repeat (rewrite set_if_in_other by discriminate);
  try rewrite set_if_in_lookup;
  repeat (rewrite set_if_in_other by discriminate);
  try match goal with
      | |- context [match ?m !! ?k with _ => _ end] => destruct (m !! k)
      end;
  try reflexivity; vm_compute; reflexivity.

(** The function by itself, called with a [group_profile] key: the group
    is set and no individual profile is. *)
Lemma create_security_rule_group (kwargs security_rule : gmap string pyval)
  (v : pyval) :
  kwargs !! "group_profile" = Some v ->
  create_security_rule kwargs = Ok security_rule ->
  security_rule !! "group" = Some v
  /\ forallb (unset security_rule) (map snd individual_profiles) = true.
Proof.
  intros Hg Hc. required_keys Hc. rewrite Hg in Hc. injection Hc as <-.
  split; [apply lookup_insert_eq|].
  unfold unset. cbn [forallb map snd individual_profiles].
  repeat (rewrite lookup_insert_ne by discriminate).
  repeat (rewrite set_if_in_other by discriminate).
  vm_compute. reflexivity.
Qed.

(** The function by itself, called without a [group_profile] key: every
    individual profile among the keys is set, and the group is not. *)
Lemma create_security_rule_individual (kwargs security_rule : gmap string pyval) :
  kwargs !! "group_profile" = None ->
  create_security_rule kwargs = Ok security_rule ->
  security_rule !! "group" = None
  /\ Forall (fun '(key, attr) => security_rule !! attr = kwargs !! key)
       individual_profiles.
Proof.
  intros Hg Hc. required_keys Hc. rewrite Hg in Hc. injection Hc as <-.
  split; [attribute_lookup|].
  unfold individual_profiles.
  repeat (apply List.Forall_cons; [attribute_lookup|]). apply List.Forall_nil.
Qed.

(** The call in [main]: the rule it builds, whatever the parameters. *)
Lemma main_security_rule (p : Params) :
  match create_security_rule (main_kwargs p) with
  | Ok security_rule =>
      security_rule !! "group" = Some (of_option (group_profile p))
      /\ forallb (unset security_rule) (map snd individual_profiles) = true
  | Raise _ => False
  end.
Proof.
  vm_compute. split; reflexivity.
Qed.

End RuleCreation.

(** C3, the code on the call [main] makes: [main] passes every keyword,
    [group_profile] among them, so the rule it builds always has its group
    attribute set to the [group_profile] parameter, None included, and
    never has any of the seven individual profile attributes set.  On the
    documented example with individual profiles and no group, the rule is
    created with none of them. *)
Theorem C3_main_sets_no_individual_profile :
  (forall p : panos_add_rule.Params,
      exists security_rule,
        panos_add_rule.create_security_rule (panos_add_rule.main_kwargs p)
        = Ok security_rule
        /\ security_rule !! "group"
           = Some (panos_add_rule.of_option (panos_add_rule.group_profile p))
        /\ forallb (unset security_rule) (map snd individual_profiles) = true)
  /\
  (exists security_rule,
      panos_add_rule.main true Fixtures.creating_firewall
        (Fixtures.with_profiles None)
      = ([panos_add_rule.RefreshRules; panos_add_rule.Create security_rule],
         panos_add_rule.ExitJson true "Rule 'Allow HTTP w profile' successfully added")
      /\ panos_add_rule.antivirus (Fixtures.with_profiles None) = Some "default"
      /\ panos_add_rule.group_profile (Fixtures.with_profiles None) = None
      /\ panos_add_rule.getattr security_rule "virus" = panos_add_rule.PNone
      /\ panos_add_rule.getattr security_rule "group" = panos_add_rule.PNone).
Proof.
  split.
  - intros p. pose proof (main_security_rule p) as H.
    destruct (panos_add_rule.create_security_rule (panos_add_rule.main_kwargs p))
      as [security_rule|e]; [|contradiction].
    exists security_rule. split; [reflexivity | exact H].
  - eexists. split; [vm_compute; reflexivity|].
    split; [reflexivity|]. split; [reflexivity|].
    split; vm_compute; reflexivity.
Qed.

(** ** The remaining testable properties of the filter *)

Section Filter.

Import panos_query.
Context {runtime : PyRuntime}.
Variable device : Device.
Variable dev_group : option DeviceGroup.

Lemma str_in_In (x : string) (xs : list string) :
  str_in x xs = true <-> In x xs.
Proof.
  induction xs as [|y ys IH]; simpl; [split; [discriminate | contradiction]|].
  rewrite orb_true_iff, IH. destruct (String.eqb_spec y x) as [Heq|Hne].
  - split; intros _; left; [exact Heq | reflexivity].
  - split; intros [H|H]; [discriminate | right; exact H | contradiction
                         | right; exact H].
Qed.

Lemma zone_loop (zone : string) (zones : list string) (matched : bool) :
  fold_left
    (fun matched object_string =>
       if String.eqb object_string zone then true else matched)
    zones matched
  = matched || str_in zone zones.
Proof.
  revert matched. induction zones as [|z zs IH]; intros matched; simpl.
  - rewrite orb_false_r. reflexivity.
  - rewrite IH. destruct (String.eqb z zone), matched; reflexivity.
Qed.

End Filter.

(** X1: the zone criterion holds exactly when the zone list of the rule
    holds any or the queried zone. *)
Theorem zone_match_any_or_listed :
  forall (zone : string) (zones : list string),
    panos_query.zone_match zone zones = str_in "any" zones || str_in zone zones.
Proof.
  intros zone zones. unfold panos_query.zone_match, panos_query.loose_match.
  simpl. destruct (str_in "any" zones); [reflexivity|].
  rewrite zone_loop. reflexivity.
Qed.

(** X2: an address list that holds any satisfies the address criterion,
    whatever the queried address, readable or not. *)
Theorem ip_match_any :
  forall (runtime : PyRuntime) (device : panos_query.Device)
         (dev_group : option panos_query.DeviceGroup)
         (ip : string) (addresses : list string),
    In "any" addresses ->
    panos_query.ip_match device dev_group ip addresses = Ok true.
Proof.
  intros runtime device dev_group ip addresses H.
  apply str_in_In in H. unfold panos_query.ip_match. rewrite H. reflexivity.
Qed.

Lemma ip_match_any_witness :
  @panos_query.ip_match ipv4_runtime (Fixtures.firewall [] []) None
    "not-an-address" ["10.0.0.0/24"; "any"]
  = Ok true.
Proof.
  apply (ip_match_any ipv4_runtime (Fixtures.firewall [] []) None).
  right. left. reflexivity.
Defined.

(** The Address Object 10.0.0.0/24 of kind ip-netmask holds 10.0.0.5 and
    does not hold 10.0.1.5. *)
Example addr_in_obj_netmask :
  let test addr :=
    @panos_query.addr_in_obj ipv4_runtime addr
      (panos_query.VObject (panos_query.IsAddressObject Fixtures.lan)) in
  test "10.0.0.5" = Ok true /\ test "10.0.1.5" = Ok false.
Proof.
  split; vm_compute; reflexivity.
Qed.

(** An Address Group whose only member is an Address Object gives the
    iteration of the address loop the result that the Address Object
    gives it directly. *)
Lemma address_group_of_one :
  forall (runtime : PyRuntime) (device : panos_query.Device)
         (dev_group : option panos_query.DeviceGroup)
         (ip group_name member_name : string) (matched : bool)
         (g : panos_query.AddressGroup) (o : panos_query.AddressObject),
    panos_query.get_object device dev_group group_name
    = Ok (panos_query.VObject (panos_query.IsAddressGroup g)) ->
    panos_query.static_value g = [member_name] ->
    panos_query.get_object device dev_group member_name
    = Ok (panos_query.VObject (panos_query.IsAddressObject o)) ->
    panos_query.address_step device dev_group ip matched group_name
    = panos_query.address_step device dev_group ip matched member_name.
Proof.
  intros runtime device dev_group ip group_name member_name matched g o
    Hgroup Hmembers Hmember.
  unfold panos_query.address_step. rewrite Hgroup, Hmember. simpl.
  rewrite Hmembers. simpl. unfold panos_query.member_step. rewrite Hmember. simpl.
  destruct (panos_query.addr_in_obj ip _) as [[|]|e]; reflexivity.
Qed.

Example address_group_of_one_example :
  let kids :=
    [panos_query.IsAddressObject Fixtures.lan;
     panos_query.IsAddressGroup
       {| panos_query.ag_name := "sites"; panos_query.static_value := ["lan"] |}] in
  @panos_query.address_step ipv4_runtime (Fixtures.firewall kids []) None
    "10.0.0.5" false "sites"
  = @panos_query.address_step ipv4_runtime (Fixtures.firewall kids []) None
      "10.0.0.5" false "lan".
Proof.
  intros kids.
  exact (address_group_of_one ipv4_runtime (Fixtures.firewall kids []) None
           "10.0.0.5" "sites" "lan" false
           {| panos_query.ag_name := "sites"; panos_query.static_value := ["lan"] |}
           Fixtures.lan eq_refl eq_refl eq_refl).
Qed.

(** X5: a service list with application-default and without any fails the
    port criterion, whatever the port; a query for destination port 80/tcp
    on a rulebase whose only rule has the services application-default
    finds no matching rule. *)
Theorem port_match_application_default :
  (forall (runtime : PyRuntime) (device : panos_query.Device)
          (dev_group : option panos_query.DeviceGroup)
          (orientation port : string) (proto : option string)
          (services : list string),
      In "application-default" services ->
      ~ In "any" services ->
      panos_query.port_match device dev_group orientation port proto services
      = Ok false)
  /\
  snd (@panos_query.main ipv4_runtime Fixtures.names_serializer true
         (Fixtures.firewall [] [Fixtures.rule "web" ["any"] ["application-default"] []])
         {| panos_query.source_zone_p := None;
            panos_query.destination_zone_p := None;
            panos_query.source_ip_p := None;
            panos_query.destination_ip_p := None;
            panos_query.source_port_p := None;
            panos_query.destination_port_p := Some "80";
            panos_query.protocol_p := Some "tcp";
            panos_query.tag_p := None;
            panos_query.devicegroup_p := None |})
  = panos_query.FailJson "No matching rules found.".
Proof.
  split; [|vm_compute; reflexivity].
  intros runtime device dev_group orientation port proto services Happ Hany.
  unfold panos_query.port_match.
  destruct (str_in "any" services) eqn:E.
  - exfalso. apply Hany, str_in_In, E.
  - apply str_in_In in Happ. rewrite Happ. reflexivity.
Qed.

Lemma port_match_application_default_witness :
  @panos_query.port_match ipv4_runtime (Fixtures.firewall [] []) None
    "destination" "80" (Some "tcp") ["application-default"]
  = Ok false.
Proof.
  apply (proj1 port_match_application_default ipv4_runtime
           (Fixtures.firewall [] []) None).
  - left. reflexivity.
  - intros [H|[]]. discriminate.
Defined.

(** ** Name resolution *)

Section Resolution.

Import panos_query.

Lemma class_eqb_eq (a b : class) : class_eqb a b = true <-> a = b.
Proof.
  destruct a, b; simpl; split; intros H; try reflexivity; discriminate.
Qed.

Lemma find_sound (kids : list PanObject) (obj_name : string) (c : class)
  (o : PanObject) :
  find kids obj_name c = Some o ->
  In o kids /\ name o = obj_name /\ class_of o = c.
Proof.
  unfold find. intros H. apply List.find_some in H as [Hin Htest].
  apply andb_prop in Htest as [Hname Hclass].
  apply String.eqb_eq in Hname. apply class_eqb_eq in Hclass. auto.
Qed.

Lemma find_undefined (kids : list PanObject) (obj_name : string)
  (classes : list class) (c : class) :
  undefined_in kids obj_name classes ->
  In c classes ->
  find kids obj_name c = None.
Proof.
  intros Hun Hc. destruct (find kids obj_name c) as [o|] eqn:E; [|reflexivity].
  apply find_sound in E as (Hin & Hname & Hclass).
  exfalso. apply (Hun o Hin Hname). rewrite Hclass. exact Hc.
Qed.

Lemma find_none_undefined (kids : list PanObject) (obj_name : string) (c : class) :
  find kids obj_name c = None ->
  undefined_in kids obj_name [c].
Proof.
  unfold find. intros H o Hin Hname [Hc|[]].
  pose proof (List.find_none _ _ H o Hin) as Htest. cbv beta in Htest.
  rewrite Hname, String.eqb_refl, (proj2 (class_eqb_eq _ _) (eq_sym Hc)) in Htest.
  discriminate.
Qed.

Lemma undefined_in_two (kids : list PanObject) (obj_name : string) (c d : class) :
  undefined_in kids obj_name [c] ->
  undefined_in kids obj_name [d] ->
  undefined_in kids obj_name [c; d].
Proof.
  intros Hc Hd o Hin Hname [H|[H|[]]].
  - apply (Hc o Hin Hname). left. exact H.
  - apply (Hd o Hin Hname). left. exact H.
Qed.

End Resolution.

Section Lookups.

Import panos_query.
Variable device : Device.
Variable dev_group : option DeviceGroup.

Ltac found E :=
  apply find_sound in E as (? & ? & ?);
  repeat split; auto; try (rewrite_class; simpl; auto)
with rewrite_class :=
  match goal with
  | H : class_of _ = _ |- _ => rewrite H
  end.

Lemma get_object_outcome (obj_name : string) :
  lookup_outcome device dev_group (get_object device dev_group obj_name)
    obj_name [CAddressObject; CAddressGroup].
Proof.
  unfold get_object, lookup_outcome, resolved_from, group_find.
  destruct (find (children device) obj_name CAddressObject) as [o|] eqn:E1;
    [found E1|].
  destruct (find (children device) obj_name CAddressGroup) as [o|] eqn:E2;
    [found E2|].
  assert (Hglobal : undefined_in (children device) obj_name
                      [CAddressObject; CAddressGroup])
    by (apply undefined_in_two; apply find_none_undefined; assumption).
  destruct (is_panorama device) eqn:Hpan; [|split; [exact Hglobal|discriminate]].
  destruct dev_group as [g|]; simpl; [|auto].
  destruct (find (dg_children g) obj_name CAddressObject) as [o|] eqn:E3.
  { apply find_sound in E3 as (? & ? & Hc). rewrite Hc. simpl. eauto 10. }
  destruct (find (dg_children g) obj_name CAddressGroup) as [o|] eqn:E4.
  { apply find_sound in E4 as (? & ? & Hc). rewrite Hc. simpl. eauto 10. }
  split; [exact Hglobal|]. intros _. exists g. split; [reflexivity|].
  apply undefined_in_two; apply find_none_undefined; assumption.
Qed.

Lemma get_service_outcome (obj_name : string) :
  lookup_outcome device dev_group (get_service device dev_group obj_name)
    obj_name [CServiceObject; CServiceGroup].
Proof.
  unfold get_service, lookup_outcome, resolved_from, group_find.
  destruct (find (children device) obj_name CServiceObject) as [o|] eqn:E1;
    [found E1|].
  destruct (find (children device) obj_name CServiceGroup) as [o|] eqn:E2;
    [found E2|].
  assert (Hglobal : undefined_in (children device) obj_name
                      [CServiceObject; CServiceGroup])
    by (apply undefined_in_two; apply find_none_undefined; assumption).
  destruct (is_panorama device) eqn:Hpan; [|split; [exact Hglobal|discriminate]].
  destruct dev_group as [g|]; simpl; [|auto].
  destruct (find (dg_children g) obj_name CServiceObject) as [o|] eqn:E3.
  { apply find_sound in E3 as (? & ? & Hc). rewrite Hc. simpl. eauto 10. }
  destruct (find (dg_children g) obj_name CServiceGroup) as [o|] eqn:E4.
  { apply find_sound in E4 as (? & ? & Hc). rewrite Hc. simpl. eauto 10. }
  split; [exact Hglobal|]. intros _. exists g. split; [reflexivity|].
  apply undefined_in_two; apply find_none_undefined; assumption.
Qed.

Lemma get_tag_outcome (obj_name : string) :
  lookup_outcome device dev_group (get_tag device dev_group obj_name)
    obj_name [CTag].
Proof.
  unfold get_tag, lookup_outcome, resolved_from, group_find.
  destruct (find (children device) obj_name CTag) as [o|] eqn:E1; [found E1|].
  assert (Hglobal : undefined_in (children device) obj_name [CTag])
    by (apply find_none_undefined; assumption).
  destruct (is_panorama device) eqn:Hpan; [|split; [exact Hglobal|discriminate]].
  destruct dev_group as [g|]; simpl; [|auto].
  destruct (find (dg_children g) obj_name CTag) as [o|] eqn:E3.
  { apply find_sound in E3 as (? & ? & Hc). rewrite Hc. simpl. eauto 10. }
  split; [exact Hglobal|]. intros _. exists g. split; [reflexivity|].
  apply find_none_undefined; assumption.
Qed.

End Lookups.

(** X6: the three lookups answer for both scopes.  An answer that is an
    object has the name asked for and one of the classes of the lookup; it
    is a child of the device, or, on a Panorama whose own children do not
    define the name, a child of the device group: a shared object shadows
    one of the device group.  The answer is False only for a name that
    neither scope defines, and the lookup raises AttributeError only on a
    Panorama without a device group, for a name its own children do not
    define. *)
Theorem lookups_answer_for_both_scopes :
  forall (device : panos_query.Device)
         (dev_group : option panos_query.DeviceGroup) (obj_name : string),
    lookup_outcome device dev_group
      (panos_query.get_object device dev_group obj_name) obj_name
      [panos_query.CAddressObject; panos_query.CAddressGroup]
    /\ lookup_outcome device dev_group
         (panos_query.get_service device dev_group obj_name) obj_name
         [panos_query.CServiceObject; panos_query.CServiceGroup]
    /\ lookup_outcome device dev_group
         (panos_query.get_tag device dev_group obj_name) obj_name
         [panos_query.CTag].
Proof.
  intros device dev_group obj_name. split; [|split].
  - apply get_object_outcome.
  - apply get_service_outcome.
  - apply get_tag_outcome.
Qed.

(** ** More on the address criterion *)

Lemma for_each_ext {A S : Type} (f g : S -> A -> res S) (xs : list A) :
  Forall (fun x => forall s, f s x = g s x) xs ->
  forall s, for_each f xs s = for_each g xs s.
Proof.
  induction 1 as [|x xs Hx _ IH]; intros s; simpl; [reflexivity|].
  rewrite Hx. destruct (g s x); simpl; [apply IH | reflexivity].
Qed.

(** A loop whose body never takes the flag back from true ends with the
    flag true, if it ends. *)
Lemma for_each_keeps_true {A : Type} (body : bool -> A -> res bool) (xs : list A) :
  (forall x b, body true x = Ok b -> b = true) ->
  forall b, for_each body xs true = Ok b -> b = true.
Proof.
  intros Hbody. induction xs as [|x xs IH]; intros b; simpl.
  - intros [= <-]. reflexivity.
  - destruct (body true x) as [b'|e] eqn:E; simpl; [|discriminate].
    rewrite (Hbody x b' E). apply IH.
Qed.

Section AddressLists.

Context {runtime : PyRuntime}.
Import panos_query.
Variable device : Device.
Variable dev_group : option DeviceGroup.

Lemma for_each_unresolved (ip : string) (addresses : list string) (matched : bool) :
  Forall (fun tok => get_object device dev_group tok = Ok VFalse) addresses ->
  for_each (address_step device dev_group ip) addresses matched = Ok matched.
Proof.
  induction 1 as [|tok toks Htok _ IH]; simpl; [reflexivity|].
  rewrite (address_step_unresolved device dev_group ip tok matched Htok).
  exact IH.
Qed.

Lemma addr_in_obj_unreadable (addr : string) (obj : value) :
  ip_address addr = None -> addr_in_obj addr obj = Raise ValueError.
Proof.
  intros H. unfold addr_in_obj. rewrite H. reflexivity.
Qed.

Lemma member_step_true (ip member_string : string) (b : bool) :
  member_step device dev_group ip true member_string = Ok b -> b = true.
Proof.
  unfold member_step. destruct (get_object device dev_group member_string);
    simpl; [|discriminate].
  destruct (addr_in_obj ip a) as [[|]|e]; simpl; intros [= <-]; reflexivity.
Qed.

Lemma address_step_true (ip tok : string) (b : bool) :
  address_step device dev_group ip true tok = Ok b -> b = true.
Proof.
  unfold address_step. destruct (get_object device dev_group tok) as [found|e];
    simpl; [|discriminate].
  destruct found as [|o|n]; simpl.
  - destruct (ip_network tok); simpl; intros [= <-]; reflexivity.
  - destruct o as [o|g|s|g|t]; simpl; try (intros [= <-]; reflexivity).
    + destruct (addr_in_obj ip _) as [[|]|e]; simpl; [| |discriminate];
        intros [= <-]; reflexivity.
    + destruct (static_value g) as [|m ms]; [intros [= <-]; reflexivity|].
      exact (for_each_keeps_true (member_step device dev_group ip) (m :: ms)
               (fun x b' => member_step_true ip x b') b).
  - intros [= <-]. reflexivity.
Qed.

(** A member that is an Address Object is tested like a name of the
    address list. *)
Lemma member_as_token (ip member_string : string) (o : AddressObject)
  (matched : bool) :
  get_object device dev_group member_string = Ok (VObject (IsAddressObject o)) ->
  member_step device dev_group ip matched member_string
  = address_step device dev_group ip matched member_string.
Proof.
  intros H. unfold member_step, address_step. rewrite H. simpl.
  destruct (addr_in_obj ip _) as [[|]|e]; reflexivity.
Qed.

End AddressLists.

(** X7: an address list whose names all resolve to nothing (literal
    addresses, undefined names) satisfies the address criterion exactly
    when it holds any, whatever the queried address, parseable or not. *)
Theorem ip_match_of_unresolved_names :
  forall (runtime : PyRuntime) (device : panos_query.Device)
         (dev_group : option panos_query.DeviceGroup)
         (ip : string) (addresses : list string),
    Forall (fun tok => panos_query.get_object device dev_group tok
                       = Ok panos_query.VFalse) addresses ->
    panos_query.ip_match device dev_group ip addresses
    = Ok (str_in "any" addresses).
Proof.
  intros runtime device dev_group ip addresses H. unfold panos_query.ip_match.
  simpl. destruct (str_in "any" addresses); [reflexivity|].
  apply for_each_unresolved, H.
Qed.

Lemma ip_match_of_unresolved_names_witness :
  @panos_query.ip_match ipv4_runtime (Fixtures.firewall [] []) None
    "10.1.2.3" ["10.1.2.3"; "10.0.0.0/8"; "undefined-name"]
  = Ok false.
Proof.
  apply (ip_match_of_unresolved_names ipv4_runtime (Fixtures.firewall [] []) None
           "10.1.2.3" ["10.1.2.3"; "10.0.0.0/8"; "undefined-name"]).
  repeat constructor.
Defined.

(** X8: a queried address that [ipaddress] cannot read raises ValueError
    at the first name of the address list that resolves to an Address
    Object, when the list does not hold any and the names before it
    resolve to nothing. *)
Theorem ip_match_unreadable_query :
  forall (runtime : PyRuntime) (device : panos_query.Device)
         (dev_group : option panos_query.DeviceGroup)
         (ip tok : string) (before after : list string)
         (o : panos_query.AddressObject),
    ip_address ip = None ->
    str_in "any" (before ++ tok :: after)%list = false ->
    Forall (fun x => panos_query.get_object device dev_group x
                     = Ok panos_query.VFalse) before ->
    panos_query.get_object device dev_group tok
    = Ok (panos_query.VObject (panos_query.IsAddressObject o)) ->
    panos_query.ip_match device dev_group ip (before ++ tok :: after)
    = Raise ValueError.
Proof.
  intros runtime device dev_group ip tok before after o Hip Hany Hbefore Htok.
  unfold panos_query.ip_match. rewrite Hany. simpl.
  rewrite for_each_app, (for_each_unresolved device dev_group ip before false Hbefore).
  simpl. unfold panos_query.address_step at 1. rewrite Htok. simpl.
  rewrite (addr_in_obj_unreadable ip _ Hip). reflexivity.
Qed.

Lemma ip_match_unreadable_query_witness :
  @panos_query.ip_match ipv4_runtime
    (Fixtures.firewall [panos_query.IsAddressObject Fixtures.lan] []) None
    "10.0.0.300" ["192.168.1.1"; "lan"; "10.0.0.0/8"]
  = Raise ValueError.
Proof.
  apply (ip_match_unreadable_query ipv4_runtime
           (Fixtures.firewall [panos_query.IsAddressObject Fixtures.lan] []) None
           "10.0.0.300" "lan" ["192.168.1.1"] ["10.0.0.0/8"] Fixtures.lan);
    try reflexivity.
  repeat constructor.
Defined.

(** X9: the match flag of the address criterion is never taken back: when
    the names up to some point of the address list have set it, the loop
    over the whole list ends with it set, or raises. *)
Theorem address_match_is_kept :
  forall (runtime : PyRuntime) (device : panos_query.Device)
         (dev_group : option panos_query.DeviceGroup)
         (ip : string) (before after : list string),
    for_each (panos_query.address_step device dev_group ip) before false = Ok true ->
    for_each (panos_query.address_step device dev_group ip)
      (before ++ after)%list false = Ok true
    \/ exists e,
         for_each (panos_query.address_step device dev_group ip)
           (before ++ after)%list false = Raise e.
Proof.
  intros runtime device dev_group ip before after Hbefore.
  rewrite for_each_app, Hbefore. simpl.
  destruct (for_each (panos_query.address_step device dev_group ip) after true)
    as [b|e] eqn:E; [left | right; eauto].
  f_equal. revert E. apply for_each_keeps_true. intros x b'. apply address_step_true.
Qed.

Lemma address_match_is_kept_witness :
  let step :=
    @panos_query.address_step ipv4_runtime
      (Fixtures.firewall [panos_query.IsAddressObject Fixtures.lan] []) None
      "10.0.0.5" in
  for_each step (["lan"] ++ ["192.168.1.1"; "10.9.9.9"])%list false = Ok true
  \/ exists e,
       for_each step (["lan"] ++ ["192.168.1.1"; "10.9.9.9"])%list false = Raise e.
Proof.
  exact (address_match_is_kept ipv4_runtime
           (Fixtures.firewall [panos_query.IsAddressObject Fixtures.lan] []) None
           "10.0.0.5" ["lan"] ["192.168.1.1"; "10.9.9.9"] eq_refl).
Defined.

(** X4: a name of the address list that resolves to an Address Group
    whose members all resolve to Address Objects is tested as if the
    members stood in the list in its place.  A member that is itself an
    Address Group is not expanded: with a readable queried address it
    leaves the match flag as it was. *)
Theorem address_group_members_inline :
  forall (runtime : PyRuntime) (device : panos_query.Device)
         (dev_group : option panos_query.DeviceGroup)
         (ip : string) (matched : bool),
    (forall (group_name : string) (g : panos_query.AddressGroup),
        panos_query.get_object device dev_group group_name
        = Ok (panos_query.VObject (panos_query.IsAddressGroup g)) ->
        Forall (fun m => exists o,
                    panos_query.get_object device dev_group m
                    = Ok (panos_query.VObject (panos_query.IsAddressObject o)))
          (panos_query.static_value g) ->
        panos_query.address_step device dev_group ip matched group_name
        = for_each (panos_query.address_step device dev_group ip)
            (panos_query.static_value g) matched)
    /\
    (forall (member_string : string) (nested : panos_query.AddressGroup)
            (a : IPAddress),
        panos_query.get_object device dev_group member_string
        = Ok (panos_query.VObject (panos_query.IsAddressGroup nested)) ->
        ip_address ip = Some a ->
        panos_query.member_step device dev_group ip matched member_string
        = Ok matched).
Proof.
  intros runtime device dev_group ip matched. split.
  - intros group_name g Hgroup Hmembers.
    unfold panos_query.address_step at 1. rewrite Hgroup.
    cbn [res_bind panos_query.isinstance panos_query.class_of
         panos_query.class_eqb].
    destruct (panos_query.static_value g) as [|m ms] eqn:E; [reflexivity|].
    apply (for_each_ext (panos_query.member_step device dev_group ip)
             (panos_query.address_step device dev_group ip) (m :: ms)).
    eapply List.Forall_impl; [|exact Hmembers].
    intros x [o Hx] s. apply (member_as_token device dev_group ip x o s Hx).
  - intros member_string nested a Hget Hip. unfold panos_query.member_step.
    rewrite Hget. simpl. unfold panos_query.addr_in_obj. rewrite Hip. reflexivity.
Qed.

Lemma address_group_members_inline_witness :
  let kids :=
    [panos_query.IsAddressObject Fixtures.lan;
     panos_query.IsAddressObject Fixtures.pool;
     panos_query.IsAddressGroup
       {| panos_query.ag_name := "sites";
          panos_query.static_value := ["pool"; "lan"] |}] in
  @panos_query.address_step ipv4_runtime (Fixtures.firewall kids []) None
    "10.0.0.5" false "sites"
  = for_each
      (@panos_query.address_step ipv4_runtime (Fixtures.firewall kids []) None
         "10.0.0.5")
      ["pool"; "lan"] false.
Proof.
  intros kids.
  refine (proj1 (address_group_members_inline ipv4_runtime
                   (Fixtures.firewall kids []) None "10.0.0.5" false)
            "sites"
            {| panos_query.ag_name := "sites";
               panos_query.static_value := ["pool"; "lan"] |}
            eq_refl _).
  repeat constructor; eexists; reflexivity.
Defined.

(** ** More on the port criterion *)

Lemma for_each_keeps_false {A : Type} (body : bool -> A -> res bool) (xs : list A) :
  (forall x b, body false x = Ok b -> b = false) ->
  forall b, for_each body xs false = Ok b -> b = false.
Proof.
  intros Hbody. induction xs as [|x xs IH]; intros b; simpl.
  - intros [= <-]. reflexivity.
  - destruct (body false x) as [b'|e] eqn:E; simpl; [|discriminate].
    rewrite (Hbody x b' E). apply IH.
Qed.

Section ServiceLists.

Context {runtime : PyRuntime}.
Import panos_query.
Variable device : Device.
Variable dev_group : option DeviceGroup.

(** A member that is a Service Object is tested like a name of the
    service list. *)
Lemma service_member_as_token (orientation port member_string : string)
  (proto : option string) (s : ServiceObject) (matched : bool) :
  get_service device dev_group member_string = Ok (VObject (IsServiceObject s)) ->
  service_member_step device dev_group orientation port proto matched member_string
  = service_step device dev_group orientation port proto matched member_string.
Proof.
  intros H. unfold service_member_step, service_step. rewrite H. reflexivity.
Qed.

(** Without a queried protocol no element of a port spec matches. *)
Lemma port_in_spec_no_protocol (xs : list string) (port : string) (obj : value)
  (b : bool) :
  port_in_spec xs port None obj = Ok b -> b = false.
Proof.
  induction xs as [|x xs IH]; simpl; [intros [= <-]; reflexivity|].
  destruct (char_in "-" x).
  - destruct (index (split "-" x) 0) as [lo|e]; simpl; [|discriminate].
    destruct (int lo) as [lower|]; simpl; [|discriminate].
    destruct (index (split "-" x) 1) as [hi|e]; simpl; [|discriminate].
    destruct (int hi) as [upper|]; simpl; [|discriminate].
    destruct (int port) as [q|]; simpl; [|discriminate].
    destruct ((lower <? q) && (q <? upper)); simpl; [|exact IH].
    destruct (getattr_service protocol obj); simpl; [exact IH | discriminate].
  - destruct (String.eqb port x); simpl; [|exact IH].
    destruct (getattr_service protocol obj); simpl; [exact IH | discriminate].
Qed.

Lemma port_in_svc_no_protocol (orientation port : string) (obj : value) (b : bool) :
  port_in_svc orientation port None obj = Ok b -> b = false.
Proof.
  unfold port_in_svc. destruct (String.eqb orientation "source").
  - destruct (getattr_service source_port obj); simpl; [|discriminate].
    apply port_in_spec_no_protocol.
  - destruct (String.eqb orientation "destination"); [|intros [= <-]; reflexivity].
    destruct (getattr_service destination_port obj); simpl; [|discriminate].
    apply port_in_spec_no_protocol.
Qed.

Lemma service_member_step_no_protocol (orientation port member_string : string)
  (b : bool) :
  service_member_step device dev_group orientation port None false member_string
  = Ok b ->
  b = false.
Proof.
  unfold service_member_step.
  destruct (get_service device dev_group member_string) as [member|e];
    simpl; [|discriminate].
  destruct (port_in_svc orientation port None member) as [inside|e] eqn:E;
    simpl; [|discriminate].
  rewrite (port_in_svc_no_protocol _ _ _ _ E). intros [= <-]. reflexivity.
Qed.

Lemma service_step_no_protocol (orientation port tok : string) (b : bool) :
  service_step device dev_group orientation port None false tok = Ok b ->
  b = false.
Proof.
  unfold service_step.
  destruct (get_service device dev_group tok) as [[|[o|g|s|g|t]|n]|e];
    simpl; try discriminate; try (intros [= <-]; reflexivity).
  - destruct (port_in_svc orientation port None _) as [inside|e] eqn:E;
      simpl; [|discriminate].
    rewrite (port_in_svc_no_protocol _ _ _ _ E). intros [= <-]. reflexivity.
  - apply for_each_keeps_false. intros x b'.
    apply service_member_step_no_protocol.
Qed.

End ServiceLists.

(** X10: a name of the service list that resolves to a Service Group whose
    members all resolve to Service Objects is tested as if the members
    stood in the list in its place.  A member that is itself a Service
    Group is not expanded: the port test raises AttributeError on it. *)
Theorem service_group_members_inline :
  forall (runtime : PyRuntime) (device : panos_query.Device)
         (dev_group : option panos_query.DeviceGroup)
         (orientation port : string) (proto : option string) (matched : bool),
    (forall (group_name : string) (g : panos_query.ServiceGroup),
        panos_query.get_service device dev_group group_name
        = Ok (panos_query.VObject (panos_query.IsServiceGroup g)) ->
        Forall (fun m => exists s,
                    panos_query.get_service device dev_group m
                    = Ok (panos_query.VObject (panos_query.IsServiceObject s)))
          (panos_query.sg_value g) ->
        panos_query.service_step device dev_group orientation port proto
          matched group_name
        = for_each
            (panos_query.service_step device dev_group orientation port proto)
            (panos_query.sg_value g) matched)
    /\
    (forall (member_string : string) (nested : panos_query.ServiceGroup),
        is_orientation orientation ->
        panos_query.get_service device dev_group member_string
        = Ok (panos_query.VObject (panos_query.IsServiceGroup nested)) ->
        panos_query.service_member_step device dev_group orientation port proto
          matched member_string
        = Raise AttributeError).
Proof.
  intros runtime device dev_group orientation port proto matched. split.
  - intros group_name g Hgroup Hmembers.
    unfold panos_query.service_step at 1. rewrite Hgroup.
    cbn [res_bind].
    apply (for_each_ext
             (panos_query.service_member_step device dev_group orientation port proto)
             (panos_query.service_step device dev_group orientation port proto)).
    eapply List.Forall_impl; [|exact Hmembers].
    intros x [s Hx] m.
    apply (service_member_as_token device dev_group orientation port x proto s m Hx).
  - intros member_string nested Ho Hget.
    apply (service_member_step_raises device dev_group orientation port
             member_string proto _ matched Ho Hget).
    reflexivity.
Qed.

Lemma service_group_members_inline_witness :
  let kids :=
    [panos_query.IsServiceObject Fixtures.web;
     panos_query.IsServiceGroup
       {| panos_query.sg_name := "inner"; panos_query.sg_value := ["web"] |};
     panos_query.IsServiceGroup
       {| panos_query.sg_name := "outer"; panos_query.sg_value := ["inner"] |}] in
  @panos_query.service_step ipv4_runtime (Fixtures.firewall kids []) None
    "destination" "443" (Some "tcp") false "inner"
  = for_each
      (@panos_query.service_step ipv4_runtime (Fixtures.firewall kids []) None
         "destination" "443" (Some "tcp"))
      ["web"] false
  /\
  @panos_query.service_member_step ipv4_runtime (Fixtures.firewall kids []) None
    "destination" "443" (Some "tcp") false "inner"
  = Raise AttributeError.
Proof.
  intros kids. split.
  - refine (proj1 (service_group_members_inline ipv4_runtime
                     (Fixtures.firewall kids []) None "destination" "443"
                     (Some "tcp") false)
              "inner"
              {| panos_query.sg_name := "inner"; panos_query.sg_value := ["web"] |}
              eq_refl _).
    repeat constructor; eexists; reflexivity.
  - refine (proj2 (service_group_members_inline ipv4_runtime
                     (Fixtures.firewall kids []) None "destination" "443"
                     (Some "tcp") false)
              "inner"
              {| panos_query.sg_name := "inner"; panos_query.sg_value := ["web"] |}
              _ eq_refl).
    right. reflexivity.
Defined.

(** X11: the protocol parameter is optional, but without it the port
    criterion holds only through any: on a service list without any it is
    false, or raises, whatever the services define. *)
Theorem port_match_needs_protocol :
  forall (runtime : PyRuntime) (device : panos_query.Device)
         (dev_group : option panos_query.DeviceGroup)
         (orientation port : string) (services : list string),
    str_in "any" services = false ->
    panos_query.port_match device dev_group orientation port None services
    = Ok false
    \/ exists e,
         panos_query.port_match device dev_group orientation port None services
         = Raise e.
Proof.
  intros runtime device dev_group orientation port services Hany.
  unfold panos_query.port_match. rewrite Hany. simpl.
  destruct (str_in "application-default" services); [left; reflexivity|].
  destruct (for_each _ services false) as [b|e] eqn:E; [left | right; eauto].
  f_equal. revert E. apply for_each_keeps_false. intros x b'.
  apply service_step_no_protocol.
Qed.

Lemma port_match_needs_protocol_witness :
  let device := Fixtures.firewall [panos_query.IsServiceObject Fixtures.web] [] in
  @panos_query.port_match ipv4_runtime device None "destination" "443" None ["web"]
  = Ok false
  \/ exists e,
       @panos_query.port_match ipv4_runtime device None "destination" "443" None
         ["web"]
       = Raise e.
Proof.
  exact (port_match_needs_protocol ipv4_runtime
           (Fixtures.firewall [panos_query.IsServiceObject Fixtures.web] []) None
           "destination" "443" ["web"] eq_refl).
Defined.

(** ** The hit list and the exits of the query *)

Section HitLists.

Context {runtime : PyRuntime}.
Import panos_query.
Variable device : Device.
Variable dev_group : option DeviceGroup.

Lemma criterion_length (param : option string) (test : string -> res bool)
  (hitlist hitlist' : list bool) :
  criterion param test hitlist = Ok hitlist' ->
  length hitlist' = (length hitlist + if truthy param then 1 else 0)%nat.
Proof.
  destruct (criterion_cases param test hitlist)
    as [[Ht ->]|(v & _ & Ht & ->)]; rewrite Ht.
  - intros [= <-]. lia.
  - destruct (test v) as [m|e]; simpl; [|discriminate].
    intros [= <-]. rewrite List.length_app. reflexivity.
Qed.

Lemma criteria_hitlist_length (p : Params) (rule : SecurityRule)
  (hitlist : list bool) :
  criteria_hitlist device dev_group p rule = Ok hitlist ->
  length hitlist
  = length
      (List.filter truthy
         [source_zone_p p; destination_zone_p p; source_ip_p p;
          destination_ip_p p; source_port_p p; destination_port_p p]).
Proof.
  unfold criteria_hitlist.
  destruct (criterion (source_zone_p p) _ _) as [h1|e] eqn:E1; simpl; [|discriminate].
  destruct (criterion (destination_zone_p p) _ _) as [h2|e] eqn:E2; simpl;
    [|discriminate].
  destruct (criterion (source_ip_p p) _ _) as [h3|e] eqn:E3; simpl; [|discriminate].
  destruct (criterion (destination_ip_p p) _ _) as [h4|e] eqn:E4; simpl;
    [|discriminate].
  destruct (criterion (source_port_p p) _ _) as [h5|e] eqn:E5; simpl; [|discriminate].
  destruct (criterion (destination_port_p p) _ _) as [h6|e] eqn:E6; simpl;
    [|discriminate].
  intros [= <-].
  apply criterion_length in E1, E2, E3, E4, E5, E6. simpl in E1.
  destruct (truthy (source_zone_p p)), (truthy (destination_zone_p p)),
    (truthy (source_ip_p p)), (truthy (destination_ip_p p)),
    (truthy (source_port_p p)), (truthy (destination_port_p p)); simpl; lia.
Qed.

(** The tag loop, when it ends, has found nothing. *)
Lemma tag_loop_next (queried : string) (tags : list string) (b : bool) :
  tag_loop device dev_group queried tags = Next b -> b = false.
Proof.
  induction tags as [|t ts IH]; simpl; [intros [= <-]; reflexivity|].
  destruct (get_tag device dev_group t) as [[|o|n]|e]; try exact IH;
    [|discriminate].
  destruct (String.eqb (name o) queried); [discriminate | exact IH].
Qed.

Lemma is_hit_false_last (hitlist : list bool) :
  is_hit (hitlist ++ [false])%list = false.
Proof.
  unfold is_hit. rewrite existsb_app. simpl. rewrite orb_true_r. reflexivity.
Qed.

Lemma rule_hitlist_with_tag (p : Params) (rule : SecurityRule)
  (hitlist : list bool) :
  truthy (tag_p p) = true ->
  rule_hitlist device dev_group p rule = Next hitlist ->
  is_hit hitlist = false.
Proof.
  intros Ht. unfold rule_hitlist.
  destruct (criteria_hitlist device dev_group p rule) as [h|e]; [|discriminate].
  destruct (tag_p p) as [q|]; [|discriminate]. rewrite Ht.
  destruct (tag_loop device dev_group q (tag rule)) as [b| |e] eqn:E;
    try discriminate.
  apply tag_loop_next in E. subst b. intros [= <-]. apply is_hit_false_last.
Qed.

(** With a tag criterion the loop adds no rule to the hit rulebase. *)
Lemma rule_loop_with_tag (p : Params) (rulelist : list SecurityRule) :
  truthy (tag_p p) = true ->
  forall hitbase hits,
    rule_loop device dev_group p rulelist hitbase = Next hits -> hits = hitbase.
Proof.
  intros Ht. induction rulelist as [|r rs IH]; intros hitbase hits; simpl.
  - intros [= <-]. reflexivity.
  - destruct (rule_hitlist device dev_group p r) as [hl| |e] eqn:E;
      try discriminate.
    rewrite (rule_hitlist_with_tag p r hl Ht E). apply IH.
Qed.

(** Without a tag criterion the loop never returns from [main]. *)
Lemma rule_loop_without_tag (p : Params) (rulelist : list SecurityRule) :
  truthy (tag_p p) = false ->
  forall hitbase, rule_loop device dev_group p rulelist hitbase <> Return_True.
Proof.
  intros Ht. induction rulelist as [|r rs IH]; intros hitbase; simpl;
    [discriminate|].
  pose proof (rule_hitlist_no_tag device dev_group p r Ht) as Hno.
  destruct (rule_hitlist device dev_group p r) as [hl| |e];
    [apply IH | contradiction | discriminate].
Qed.

(** A zone criterion never raises. *)
Lemma criterion_zone (param : option string) (zones : list string)
  (hitlist : list bool) :
  criterion param (fun zone => Ok (zone_match zone zones)) hitlist
  = Ok (hitlist ++ if truthy param then [zone_listed param zones] else [])%list.
Proof.
  unfold criterion, zone_listed. destruct param as [zone|].
  - destruct (truthy (Some zone)); simpl; [|rewrite app_nil_r; reflexivity].
    unfold zone_match, loose_match. simpl.
    destruct (str_in "any" zones); simpl; [reflexivity|].
    rewrite zone_loop. reflexivity.
  - simpl. rewrite app_nil_r. reflexivity.
Qed.

Lemma zone_listed_absent (param : option string) (zones : list string) :
  truthy param = false -> zone_listed param zones = true.
Proof.
  unfold zone_listed. destruct param; [intros ->|]; reflexivity.
Qed.

Lemma rule_hitlist_zones (p : Params) (rule : SecurityRule) :
  zone_criteria_only p = true ->
  exists hitlist,
    rule_hitlist device dev_group p rule = Next hitlist
    /\ is_hit hitlist = zones_ok p rule.
Proof.
  unfold zone_criteria_only. intros H.
  repeat (apply andb_prop in H as [H ?]).
  repeat match goal with
         | Hn : negb _ = true |- _ => apply negb_true_iff in Hn
         end.
  unfold rule_hitlist, criteria_hitlist.
  rewrite criterion_zone. cbn [res_bind]. rewrite criterion_zone. cbn [res_bind].
  repeat (rewrite criterion_absent by assumption; cbn [res_bind]).
  destruct (tag_p p) as [queried|];
    [match goal with Ht : truthy (Some _) = false |- _ => rewrite Ht end|];
    (eexists; split; [reflexivity|]);
    unfold zones_ok, is_hit;
    (destruct (truthy (source_zone_p p)) eqn:Es;
     [|rewrite (zone_listed_absent _ (fromzone rule) Es)]);
    (destruct (truthy (destination_zone_p p)) eqn:Ed;
     [|rewrite (zone_listed_absent _ (tozone rule) Ed)]);
    simpl;
    repeat match goal with
           | |- context [zone_listed ?a ?b] => destruct (zone_listed a b)
           end; reflexivity.
Qed.

Lemma rule_loop_zones (p : Params) (rulelist hitbase : list SecurityRule) :
  zone_criteria_only p = true ->
  rule_loop device dev_group p rulelist hitbase
  = Next (hitbase ++ List.filter (zones_ok p) rulelist)%list.
Proof.
  intros H. revert hitbase.
  induction rulelist as [|r rs IH]; intros hitbase; simpl.
  - rewrite app_nil_r. reflexivity.
  - destruct (rule_hitlist_zones p r H) as (hl & -> & ->).
    rewrite IH. destruct (zones_ok p r); [rewrite <- app_assoc|]; reflexivity.
Qed.

End HitLists.

(** X12: when the iteration of a rule runs to its end, its hit list has
    one entry for each criterion the query supplies, no more and no
    fewer. *)
Theorem hitlist_has_one_entry_per_criterion :
  forall (runtime : PyRuntime) (device : panos_query.Device)
         (dev_group : option panos_query.DeviceGroup) (p : panos_query.Params)
         (rule : panos_query.SecurityRule) (hitlist : list bool),
    panos_query.rule_hitlist device dev_group p rule = panos_query.Next hitlist ->
    length hitlist = supplied_count p.
Proof.
  intros runtime device dev_group p rule hitlist. unfold panos_query.rule_hitlist.
  destruct (panos_query.criteria_hitlist device dev_group p rule) as [h|e] eqn:E;
    [|discriminate].
  apply criteria_hitlist_length in E. unfold supplied_count.
  change [panos_query.source_zone_p p; panos_query.destination_zone_p p;
          panos_query.source_ip_p p; panos_query.destination_ip_p p;
          panos_query.source_port_p p; panos_query.destination_port_p p;
          panos_query.tag_p p]
    with ([panos_query.source_zone_p p; panos_query.destination_zone_p p;
           panos_query.source_ip_p p; panos_query.destination_ip_p p;
           panos_query.source_port_p p; panos_query.destination_port_p p]
            ++ [panos_query.tag_p p])%list.
  rewrite List.filter_app, List.length_app, <- E. simpl.
  destruct (panos_query.tag_p p) as [q|].
  - destruct (truthy (Some q)).
    + destruct (panos_query.tag_loop device dev_group q (panos_query.tag rule));
        try discriminate.
      intros [= <-]. rewrite List.length_app. reflexivity.
    + intros [= <-]. simpl. lia.
  - intros [= <-]. simpl. lia.
Qed.

Lemma hitlist_has_one_entry_per_criterion_witness :
  let p := {|
    panos_query.source_zone_p := Some "trust";
    panos_query.destination_zone_p := Some "";
    panos_query.source_ip_p := Some "10.0.0.5";
    panos_query.destination_ip_p := None;
    panos_query.source_port_p := None; panos_query.destination_port_p := None;
    panos_query.protocol_p := Some "tcp"; panos_query.tag_p := Some "mail";
    panos_query.devicegroup_p := None |} in
  length [true; false; false] = supplied_count p.
Proof.
  intros p.
  exact (hitlist_has_one_entry_per_criterion ipv4_runtime
           (Fixtures.firewall [] []) None p
           (Fixtures.rule "r" ["10.0.0.0/24"] ["any"] []) [true; false; false]
           eq_refl).
Defined.

Section QueryExits.

Import panos_query.
Context {runtime : PyRuntime} {serializer : Serializer}.

Lemma main_cases (HAS_LIB : bool) (device : Device) (p : Params) :
  snd (main HAS_LIB device p)
  = if negb HAS_LIB then FailJson "Missing required libraries."
    else match snd (main_devicegroup device p) with
         | inr msg => FailJson msg
         | inl dev_group => snd (main_query device dev_group p)
         end.
Proof.
  unfold main. destruct (negb HAS_LIB); [reflexivity|].
  destruct (main_devicegroup device p) as [requests [dev_group|msg]];
    [|reflexivity].
  cbn [snd]. destruct (main_query device dev_group p). reflexivity.
Qed.

Lemma main_query_cases (device : Device) (dev_group : option DeviceGroup)
  (p : Params) :
  snd (main_query device dev_group p)
  = match get_rulebase device dev_group with
    | None => Uncaught AttributeError
    | Some rulelist =>
        match rule_loop device dev_group p rulelist [] with
        | Next hitbase => main_dump hitbase rulelist
        | Return_True => ReturnTrue
        | Raised e => Uncaught e
        end
    end.
Proof.
  unfold main_query. destruct (get_rulebase device dev_group); reflexivity.
Qed.

(** Without a supplied device group nothing is validated. *)
Lemma main_devicegroup_absent (device : Device) (p : Params) :
  truthy (devicegroup_p p) = false ->
  main_devicegroup device p = ([], inl None).
Proof.
  intros H. unfold main_devicegroup. destruct (devicegroup_p p); [|reflexivity].
  rewrite H. reflexivity.
Qed.

End QueryExits.

(** X13: the tag criterion and the successful exit exclude each other.  A
    query that supplies a tag never exits with matching rules, whatever
    the device holds; a query that supplies none never returns from
    inside the rule loop. *)
Theorem tag_query_never_exits_with_rules :
  forall (runtime : PyRuntime) (serializer : panos_query.Serializer)
         (HAS_LIB : bool) (device : panos_query.Device) (p : panos_query.Params),
    (truthy (panos_query.tag_p p) = true ->
     exits_with_result (snd (panos_query.main HAS_LIB device p)) = false)
    /\ (truthy (panos_query.tag_p p) = false ->
        returns_early (snd (panos_query.main HAS_LIB device p)) = false).
Proof.
  intros runtime serializer HAS_LIB device p. rewrite main_cases.
  destruct (negb HAS_LIB); [split; reflexivity|].
  destruct (snd (panos_query.main_devicegroup device p)) as [dev_group|msg];
    [|split; reflexivity].
  rewrite main_query_cases.
  destruct (panos_query.get_rulebase device dev_group) as [rulelist|];
    [|split; reflexivity].
  split; intros Ht.
  - destruct (panos_query.rule_loop device dev_group p rulelist []) as [hits| |e]
      eqn:E; try reflexivity.
    apply (rule_loop_with_tag device dev_group p rulelist Ht) in E. subst hits.
    reflexivity.
  - pose proof (rule_loop_without_tag device dev_group p rulelist Ht []) as Hno.
    destruct (panos_query.rule_loop device dev_group p rulelist []) as [hits| |e];
      [|contradiction|reflexivity].
    destruct hits; reflexivity.
Qed.

Lemma tag_query_never_exits_with_rules_witness :
  let device :=
    Fixtures.firewall [panos_query.IsTag Fixtures.mail]
      [Fixtures.rule "untagged" ["any"] ["any"] [];
       Fixtures.rule "tagged" ["any"] ["any"] ["mail"]] in
  let tagged := {|
    panos_query.source_zone_p := None; panos_query.destination_zone_p := None;
    panos_query.source_ip_p := None; panos_query.destination_ip_p := None;
    panos_query.source_port_p := None; panos_query.destination_port_p := None;
    panos_query.protocol_p := None; panos_query.tag_p := Some "mail";
    panos_query.devicegroup_p := None |} in
  exits_with_result
    (snd (@panos_query.main ipv4_runtime Fixtures.names_serializer true device
            tagged))
  = false
  /\ returns_early
       (snd (@panos_query.main ipv4_runtime Fixtures.names_serializer true device
               Fixtures.no_params))
     = false.
Proof.
  intros device tagged. split.
  - exact (proj1 (tag_query_never_exits_with_rules ipv4_runtime
                    Fixtures.names_serializer true device tagged) eq_refl).
  - exact (proj2 (tag_query_never_exits_with_rules ipv4_runtime
                    Fixtures.names_serializer true device Fixtures.no_params)
             eq_refl).
Defined.

(** X14: a query that exits successfully has validated its device group
    and read a rulebase; what it renders are the rules of that rulebase
    whose hit list holds no False, in rulebase order and at least one, and
    its message counts them against all the rules, so never more than
    there are. *)
Theorem successful_exit_reports_the_hits :
  forall (runtime : PyRuntime) (serializer : panos_query.Serializer)
         (HAS_LIB : bool) (device : panos_query.Device) (p : panos_query.Params)
         (stdout_lines msg : string),
    snd (panos_query.main HAS_LIB device p)
    = panos_query.ExitJson stdout_lines msg ->
    exists (dev_group : option panos_query.DeviceGroup)
           (rulelist hits : list panos_query.SecurityRule),
      snd (panos_query.main_devicegroup device p) = inl dev_group
      /\ panos_query.get_rulebase device dev_group = Some rulelist
      /\ hits = List.filter (rule_is_hit device dev_group p) rulelist
      /\ hits <> []
      /\ (length hits <= length rulelist)%nat
      /\ stdout_lines
         = panos_query.json_dumps
             (panos_query.xmltodict_parse (panos_query.element_str hits))
      /\ msg = str_of_nat (length hits) ++ " of " ++ str_of_nat (length rulelist)
               ++ " rules matched".
Proof.
  intros runtime serializer HAS_LIB device p stdout_lines msg.
  rewrite main_cases. destruct (negb HAS_LIB); [discriminate|].
  destruct (snd (panos_query.main_devicegroup device p)) as [dev_group|m] eqn:Hdg;
    [|discriminate].
  rewrite main_query_cases.
  destruct (panos_query.get_rulebase device dev_group) as [rulelist|] eqn:Hrb;
    [|discriminate].
  destruct (panos_query.rule_loop device dev_group p rulelist []) as [hits| |e]
    eqn:Hloop; try discriminate.
  pose proof (rule_loop_collects device dev_group p rulelist [] hits Hloop) as Hhits.
  simpl in Hhits.
  destruct hits as [|h hs] eqn:Eh; [discriminate|]. rewrite <- Eh in *.
  unfold panos_query.main_dump. rewrite Eh at 1. intros [= <- <-].
  exists dev_group, rulelist, hits. repeat split; try assumption; try reflexivity.
  - rewrite Eh. discriminate.
  - rewrite Hhits. apply List.filter_length_le.
Qed.

Lemma successful_exit_reports_the_hits_witness :
  let first := Fixtures.rule "first" ["any"] ["any"] [] in
  let second := Fixtures.rule "second" ["10.9.9.9"] ["any"] [] in
  let device := Fixtures.firewall [] [first; second] in
  let p := {|
    panos_query.source_zone_p := Some "trust";
    panos_query.destination_zone_p := None;
    panos_query.source_ip_p := Some "10.0.0.5";
    panos_query.destination_ip_p := None;
    panos_query.source_port_p := None; panos_query.destination_port_p := None;
    panos_query.protocol_p := None; panos_query.tag_p := None;
    panos_query.devicegroup_p := None |} in
  exists (dev_group : option panos_query.DeviceGroup)
         (rulelist hits : list panos_query.SecurityRule),
    panos_query.get_rulebase device dev_group = Some rulelist
    /\ hits = List.filter (@rule_is_hit ipv4_runtime device dev_group p) rulelist
    /\ (length hits <= length rulelist)%nat.
Proof.
  intros first second device p.
  destruct (successful_exit_reports_the_hits ipv4_runtime
              Fixtures.names_serializer true device p "first"
              "1 of 2 rules matched" eq_refl)
    as (dev_group & rulelist & hits & _ & Hrb & Hhits & _ & Hle & _).
  exists dev_group, rulelist, hits. repeat split; assumption.
Defined.

(** X15: a query that supplies zone criteria only (or none) never raises
    and never returns early; its loop collects, in order, exactly the rules
    whose source zones hold any or the queried source zone and whose
    destination zones hold any or the queried destination zone, and
    [main] ends with the dump of those rules. *)
Theorem zone_query_selects_by_zone :
  forall (runtime : PyRuntime) (serializer : panos_query.Serializer)
         (device : panos_query.Device) (p : panos_query.Params)
         (dev_group : option panos_query.DeviceGroup)
         (rulelist : list panos_query.SecurityRule),
    zone_criteria_only p = true ->
    panos_query.rule_loop device dev_group p rulelist []
    = panos_query.Next (List.filter (zones_ok p) rulelist)
    /\ (snd (panos_query.main_devicegroup device p) = inl dev_group ->
        panos_query.get_rulebase device dev_group = Some rulelist ->
        snd (panos_query.main true device p)
        = panos_query.main_dump (List.filter (zones_ok p) rulelist) rulelist).
Proof.
  intros runtime serializer device p dev_group rulelist H.
  pose proof (rule_loop_zones device dev_group p rulelist [] H) as Hloop.
  simpl in Hloop. split; [exact Hloop|].
  intros Hdg Hrb. rewrite main_cases. simpl. rewrite Hdg, main_query_cases, Hrb, Hloop.
  reflexivity.
Qed.

Lemma zone_query_selects_by_zone_witness :
  let rulelist :=
    [{| panos_query.rule_name := "inside"; panos_query.fromzone := ["trust"];
        panos_query.tozone := ["any"]; panos_query.source := ["not an address"];
        panos_query.destination := ["any"]; panos_query.service := ["gone"];
        panos_query.tag := []; panos_query.action := "allow" |};
     {| panos_query.rule_name := "outside"; panos_query.fromzone := ["untrust"];
        panos_query.tozone := ["dmz"]; panos_query.source := ["any"];
        panos_query.destination := ["any"]; panos_query.service := ["any"];
        panos_query.tag := []; panos_query.action := "deny" |}] in
  let p := {|
    panos_query.source_zone_p := Some "trust";
    panos_query.destination_zone_p := Some "dmz";
    panos_query.source_ip_p := None; panos_query.destination_ip_p := Some "";
    panos_query.source_port_p := None; panos_query.destination_port_p := None;
    panos_query.protocol_p := None; panos_query.tag_p := None;
    panos_query.devicegroup_p := None |} in
  snd (@panos_query.main ipv4_runtime Fixtures.names_serializer true
         (Fixtures.firewall [] rulelist) p)
  = panos_query.ExitJson "inside" "1 of 2 rules matched".
Proof.
  intros rulelist p.
  exact (proj2 (zone_query_selects_by_zone ipv4_runtime Fixtures.names_serializer
                  (Fixtures.firewall [] rulelist) p None rulelist eq_refl)
           eq_refl eq_refl).
Defined.

Section PanoramaWithoutGroup.

Import panos_query.
Context {runtime : PyRuntime}.
Variable device : Device.

(** On a Panorama without a device group, a name that the children of the
    device do not define cannot be looked up. *)
Lemma get_object_without_group (obj_name : string) :
  is_panorama device = true ->
  undefined_in (children device) obj_name [CAddressObject; CAddressGroup] ->
  get_object device None obj_name = Raise AttributeError.
Proof.
  intros Hpan Hun. unfold get_object.
  rewrite (find_undefined _ _ _ CAddressObject Hun) by (left; reflexivity).
  rewrite (find_undefined _ _ _ CAddressGroup Hun) by (right; left; reflexivity).
  rewrite Hpan. reflexivity.
Qed.

End PanoramaWithoutGroup.

(** X16: on a Panorama, a query without a device group raises
    AttributeError as soon as it has to resolve an address that the shared
    objects do not define: with a source address criterion, a first rule
    whose sources do not hold any and start with such a name (a literal
    address, say) ends the query in an uncaught AttributeError. *)
Theorem panorama_query_without_group_raises :
  forall (runtime : PyRuntime) (serializer : panos_query.Serializer)
         (device : panos_query.Device) (p : panos_query.Params)
         (ip tok : string) (others : list string)
         (rule : panos_query.SecurityRule) (rest : list panos_query.SecurityRule),
    panos_query.is_panorama device = true ->
    truthy (panos_query.devicegroup_p p) = false ->
    panos_query.source_ip_p p = Some ip ->
    ip <> "" ->
    panos_query.rules device None = rule :: rest ->
    panos_query.source rule = tok :: others ->
    str_in "any" (tok :: others) = false ->
    undefined_in (panos_query.children device) tok
      [panos_query.CAddressObject; panos_query.CAddressGroup] ->
    snd (panos_query.main true device p) = panos_query.Uncaught AttributeError.
Proof.
  intros runtime serializer device p ip tok others rule rest
    Hpan Hdg Hip Hne Hrules Hsource Hany Hun.
  rewrite main_cases. simpl.
  rewrite (main_devicegroup_absent device p Hdg). simpl.
  rewrite main_query_cases. unfold panos_query.get_rulebase.
  unfold panos_query.is_panorama in Hpan.
  destruct (panos_query.device_kind device) eqn:Hkind; try discriminate.
  rewrite Hrules. simpl.
  assert (Hraise : panos_query.criteria_hitlist device None p rule
                   = Raise AttributeError).
  { unfold panos_query.criteria_hitlist.
    rewrite criterion_zone. cbn [res_bind]. rewrite criterion_zone. cbn [res_bind].
    unfold panos_query.criterion at 1. rewrite Hip.
    assert (Ht : truthy (Some ip) = true).
    { simpl. destruct (String.eqb_spec ip ""); [contradiction|reflexivity]. }
    rewrite Ht. unfold panos_query.ip_match. rewrite Hsource, Hany. simpl.
    unfold panos_query.address_step at 1.
    rewrite (get_object_without_group device tok); [reflexivity| |exact Hun].
    unfold panos_query.is_panorama. rewrite Hkind. reflexivity. }
  rewrite (rule_hitlist_raises device None p rule AttributeError Hraise).
  reflexivity.
Qed.

Lemma panorama_query_without_group_raises_witness :
  let rule := Fixtures.rule "ssh" ["1.1.1.1"] ["any"] [] in
  let p := {|
    panos_query.source_zone_p := None; panos_query.destination_zone_p := None;
    panos_query.source_ip_p := Some "1.1.1.1";
    panos_query.destination_ip_p := None;
    panos_query.source_port_p := None; panos_query.destination_port_p := None;
    panos_query.protocol_p := None; panos_query.tag_p := None;
    panos_query.devicegroup_p := None |} in
  snd (@panos_query.main ipv4_runtime Fixtures.names_serializer true
         (Fixtures.panorama [panos_query.IsAddressObject Fixtures.lan] [] [rule]) p)
  = panos_query.Uncaught AttributeError.
Proof.
  intros rule p.
  refine (panorama_query_without_group_raises ipv4_runtime
            Fixtures.names_serializer
            (Fixtures.panorama [panos_query.IsAddressObject Fixtures.lan] [] [rule])
            p "1.1.1.1" "1.1.1.1" [] rule []
            eq_refl eq_refl eq_refl _ eq_refl eq_refl eq_refl _).
  - discriminate.
  - intros o [<-|[]] Hname. discriminate.
Defined.

(** ** Device groups *)

Section GroupValidation.

Lemma get_devicegroup_found (device : panos_query.Device) (devicegroup : string)
  (g : panos_query.DeviceGroup) :
  panos_query.get_devicegroup device devicegroup = Some g ->
  In (panos_query.ManagedGroup g) (panos_query.devices device)
  /\ panos_query.dg_name g = devicegroup.
Proof.
  unfold panos_query.get_devicegroup.
  induction (panos_query.devices device) as [|[serial|g'] rest IH];
    [discriminate | |].
  - intros H. destruct (IH H) as [Hin Hname]. split; [right; exact Hin | exact Hname].
  - destruct (String.eqb_spec (panos_query.dg_name g') devicegroup) as [Heq|_].
    + intros [= <-]. split; [left; reflexivity | exact Heq].
    + intros H. destruct (IH H) as [Hin Hname].
      split; [right; exact Hin | exact Hname].
Qed.

Lemma get_devicegroup_none (device : panos_query.Device) (devicegroup : string) :
  panos_query.get_devicegroup device devicegroup = None ->
  forall g, In (panos_query.ManagedGroup g) (panos_query.devices device) ->
            panos_query.dg_name g <> devicegroup.
Proof.
  unfold panos_query.get_devicegroup.
  induction (panos_query.devices device) as [|[serial|g'] rest IH];
    intros H g Hin; [destruct Hin | |].
  - destruct Hin as [Heq|Hin]; [discriminate | exact (IH H g Hin)].
  - destruct (String.eqb_spec (panos_query.dg_name g') devicegroup) as [Heq|Hne];
      [discriminate|].
    destruct Hin as [[= <-]|Hin]; [exact Hne | exact (IH H g Hin)].
Qed.

Lemma devicegroup_exists_iff (device : panos_add_rule.Device) (devicegroup : string) :
  panos_add_rule.devicegroup_exists device (Some devicegroup) = true
  <-> In (panos_add_rule.ManagedGroup devicegroup) (panos_add_rule.devices device).
Proof.
  unfold panos_add_rule.devicegroup_exists.
  induction (panos_add_rule.devices device) as [|[serial|n] rest IH].
  - split; [discriminate | intros []].
  - rewrite IH. split; [intros H; right; exact H|].
    intros [H|H]; [discriminate | exact H].
  - destruct (String.eqb_spec n devicegroup) as [->|Hne].
    + split; [intros _; left; reflexivity | reflexivity].
    + rewrite IH. split; [intros H; right; exact H|].
      intros [[= H]|H]; [contradiction | exact H].
Qed.

Lemma devicegroup_exists_None (device : panos_add_rule.Device) :
  panos_add_rule.devicegroup_exists device None = false.
Proof.
  unfold panos_add_rule.devicegroup_exists.
  induction (panos_add_rule.devices device) as [|[serial|n] rest IH];
    [reflexivity | exact IH | exact IH].
Qed.

End GroupValidation.

(** X17: the two modules validate a device group name alike, against the
    device groups of the list [refresh_devices] answers with, whatever
    firewalls the list also holds.  The query finds a group exactly when
    the list holds one of that name, and the group it returns is in the
    list and has the name; the rule creation accepts a name exactly when
    the list holds a group of that name, and never accepts a missing
    name. *)
Theorem device_group_validation_is_exact :
  forall (devicegroup : string),
    (forall (device : panos_query.Device),
        match panos_query.get_devicegroup device devicegroup with
        | Some g =>
            In (panos_query.ManagedGroup g) (panos_query.devices device)
            /\ panos_query.dg_name g = devicegroup
        | None =>
            forall g, In (panos_query.ManagedGroup g) (panos_query.devices device) ->
                      panos_query.dg_name g <> devicegroup
        end)
    /\ (forall (device : panos_add_rule.Device),
           (panos_add_rule.devicegroup_exists device (Some devicegroup) = true
            <-> In (panos_add_rule.ManagedGroup devicegroup)
                  (panos_add_rule.devices device))
           /\ panos_add_rule.devicegroup_exists device None = false).
Proof.
  intros devicegroup. split.
  - intros device.
    destruct (panos_query.get_devicegroup device devicegroup) as [g|] eqn:E.
    + apply get_devicegroup_found, E.
    + apply get_devicegroup_none, E.
  - intros device. split; [apply devicegroup_exists_iff | apply devicegroup_exists_None].
Qed.

(** X18: on a Panorama the rule creation cannot do without a device group:
    with the parameter left out it fails with the message that the group
    None is not found, having created nothing. *)
Theorem panorama_creation_needs_a_group :
  forall (device : panos_add_rule.Device) (p : panos_add_rule.Params),
    panos_add_rule.is_panorama device = true ->
    panos_add_rule.devicegroup p = None ->
    panos_add_rule.main true device p
    = ([panos_add_rule.RefreshDevices],
       panos_add_rule.FailJson
         "'None' device group not found in Panorama. Is the name correct?").
Proof.
  intros device p Hpan Hdg. unfold panos_add_rule.main.
  change (negb true) with false. cbv beta iota.
  rewrite Hpan, Hdg, devicegroup_exists_None. reflexivity.
Qed.

Lemma panorama_creation_needs_a_group_witness :
  panos_add_rule.main true Fixtures.creating_manager (Fixtures.with_profiles None)
  = ([panos_add_rule.RefreshDevices],
     panos_add_rule.FailJson
       "'None' device group not found in Panorama. Is the name correct?").
Proof.
  exact (panorama_creation_needs_a_group Fixtures.creating_manager
           (Fixtures.with_profiles None) eq_refl eq_refl).
Defined.

(** ** The rule constructor and the exits of the rule creation *)

Section Keywords.

Import panos_add_rule.
Variable kwargs : gmap string pyval.

Ltac need key :=
  destruct (kwargs !! key) eqn:?; cbn [res_bind]; [|try reflexivity].

Ltac needs :=
  need "rule_name"; [need "description"; [need "to_zone"; [need "from_zone";
  [need "source"; [need "source_user"; [need "destination"; [need "category";
  [need "application"; [need "service"; [need "hip_profiles"; [need "log_start";
  [need "log_end"; [need "rule_type"; [need "action"; [|..]|..]|..]|..]|..]|..]|..]
  |..]|..]|..]|..]|..]|..]|..]|..].

Ltac attribute :=
  repeat (rewrite lookup_insert_ne by discriminate);
  repeat (rewrite set_if_in_other by discriminate);
  try rewrite set_if_in_lookup;
  repeat (rewrite set_if_in_other by discriminate);
  repeat match goal with
         | H : kwargs !! ?key = _ |- context [kwargs !! ?key] => rewrite H
         end;
  try apply lookup_insert_eq;
  try reflexivity; vm_compute; reflexivity.

Lemma create_security_rule_missing :
  List.Exists (fun '(key, _) => kwargs !! key = None) required_attributes ->
  create_security_rule kwargs = Raise KeyError.
Proof.
  intros Hex. unfold create_security_rule, getitem.
  needs.
  exfalso. unfold required_attributes in Hex.
  repeat (apply List.Exists_cons in Hex as [Hex|Hex]; [congruence|]).
  inversion Hex.
Qed.

Lemma create_security_rule_complete :
  List.Forall (fun '(key, _) => is_Some (kwargs !! key)) required_attributes ->
  exists security_rule, create_security_rule kwargs = Ok security_rule.
Proof.
  intros Hall. unfold create_security_rule, getitem.
  needs; try (destruct (kwargs !! "group_profile"); eexists; reflexivity);
    exfalso; unfold required_attributes in Hall;
    repeat match goal with
           | H : List.Forall _ (_ :: _) |- _ =>
               apply List.Forall_cons_iff in H as [[? ?] H]
           end; congruence.
Qed.

Lemma create_security_rule_attributes (security_rule : gmap string pyval) :
  create_security_rule kwargs = Ok security_rule ->
  List.Forall (fun '(key, attr) => security_rule !! attr = kwargs !! key)
    required_attributes
  /\ security_rule !! "tag" = kwargs !! "tag"
  /\ security_rule !! "group" = kwargs !! "group_profile".
Proof.
  unfold create_security_rule, getitem.
  needs; try discriminate.
  destruct (kwargs !! "group_profile") as [v|] eqn:Hgroup; intros [= <-].
  - split; [|split].
    + unfold required_attributes.
      repeat (apply List.Forall_cons; [attribute|]). apply List.Forall_nil.
    + destruct (kwargs !! "tag") eqn:Htag; attribute.
    + attribute.
  - split; [|split].
    + unfold required_attributes.
      repeat (apply List.Forall_cons; [attribute|]). apply List.Forall_nil.
    + destruct (kwargs !! "tag") eqn:Htag; attribute.
    + attribute.
Qed.

End Keywords.

Section CreationExits.

Import panos_add_rule.

Lemma main_builds_its_rule (p : Params) :
  exists security_rule,
    create_security_rule (main_kwargs p) = Ok security_rule
    /\ security_rule !! "name" = Some (PStr (rule_name p)).
Proof.
  assert (H : match create_security_rule (main_kwargs p) with
              | Ok security_rule =>
                  security_rule !! "name" = Some (PStr (rule_name p))
              | Raise _ => False
              end) by (vm_compute; reflexivity).
  destruct (create_security_rule (main_kwargs p)) as [r|e]; [|contradiction].
  exists r. split; [reflexivity | exact H].
Qed.

End CreationExits.

(** X19: the rule constructor needs its fifteen keywords and no other: with
    all of them among the keyword arguments it builds a rule, and with one
    of them missing it raises KeyError. *)
Theorem create_security_rule_needs_its_keywords :
  forall (kwargs : gmap string panos_add_rule.pyval),
    (List.Forall (fun '(key, _) => is_Some (kwargs !! key)) required_attributes ->
     exists security_rule,
       panos_add_rule.create_security_rule kwargs = Ok security_rule)
    /\ (List.Exists (fun '(key, _) => kwargs !! key = None) required_attributes ->
        panos_add_rule.create_security_rule kwargs = Raise KeyError).
Proof.
  intros kwargs. split.
  - apply create_security_rule_complete.
  - apply create_security_rule_missing.
Qed.

Lemma create_security_rule_needs_its_keywords_witness :
  panos_add_rule.create_security_rule
    (<["description" := panos_add_rule.PStr "no name"]> ∅)
  = Raise KeyError.
Proof.
  apply (proj2 (create_security_rule_needs_its_keywords
                  (<["description" := panos_add_rule.PStr "no name"]> ∅))).
  apply List.Exists_cons_hd. vm_compute. reflexivity.
Defined.

(** X20: the rule the constructor builds carries each of the fifteen
    keywords under its attribute: rule_name as name, to_zone as tozone,
    from_zone as fromzone, rule_type as type, the others under their own
    name.  Its tag is the tag keyword and its group the group_profile
    keyword, each unset when the keyword is missing. *)
Theorem create_security_rule_keeps_its_keywords :
  forall (kwargs security_rule : gmap string panos_add_rule.pyval),
    panos_add_rule.create_security_rule kwargs = Ok security_rule ->
    List.Forall (fun '(key, attr) => security_rule !! attr = kwargs !! key)
      required_attributes
    /\ security_rule !! "tag" = kwargs !! "tag"
    /\ security_rule !! "group" = kwargs !! "group_profile".
Proof.
  intros kwargs security_rule. apply create_security_rule_attributes.
Qed.

Lemma create_security_rule_keeps_its_keywords_witness :
  exists security_rule,
    panos_add_rule.create_security_rule
      (panos_add_rule.main_kwargs (Fixtures.with_profiles None))
    = Ok security_rule
    /\ security_rule !! "type" = Some (panos_add_rule.PStr "universal").
Proof.
  destruct (main_builds_its_rule (Fixtures.with_profiles None)) as (r & Hr & _).
  exists r. split; [exact Hr|].
  destruct (create_security_rule_keeps_its_keywords _ r Hr) as (Hall & _).
  apply (proj1 (List.Forall_forall _ _)) with (x := ("rule_type", "type")) in Hall.
  - rewrite Hall. vm_compute. reflexivity.
  - unfold required_attributes. do 13 right. left. reflexivity.
Defined.

(** ** A firewall and the device group parameter *)

Section FirewallGroup.

Import panos_query.
Context {runtime : PyRuntime} {serializer : Serializer}.

Lemma rule_loop_without_group (device : Device) (dev_group : option DeviceGroup)
  (p : Params) (rulelist hitbase : list SecurityRule) :
  rule_loop device dev_group (query_without_group p) rulelist hitbase
  = rule_loop device dev_group p rulelist hitbase.
Proof.
  revert hitbase. induction rulelist as [|r rs IH]; intros hitbase; simpl;
    [reflexivity|].
  change (rule_hitlist device dev_group (query_without_group p) r)
    with (rule_hitlist device dev_group p r).
  destruct (rule_hitlist device dev_group p r); [apply IH | reflexivity..].
Qed.

Lemma main_devicegroup_firewall (device : Device) (p : Params) :
  is_panorama device = false ->
  main_devicegroup device p = ([], inl None).
Proof.
  intros H. unfold main_devicegroup. rewrite H, andb_false_r.
  destruct (devicegroup_p p); reflexivity.
Qed.

End FirewallGroup.

(** X22: a device that is not a Panorama ignores the device group
    parameter: both modules end as they would without it, with the same
    requests, whatever name it holds; nothing validates it. *)
Theorem firewall_ignores_the_device_group :
  (forall (runtime : PyRuntime) (serializer : panos_query.Serializer)
          (HAS_LIB : bool) (device : panos_query.Device) (p : panos_query.Params),
      panos_query.is_panorama device = false ->
      panos_query.main HAS_LIB device p
      = panos_query.main HAS_LIB device (query_without_group p))
  /\
  (forall (HAS_LIB : bool) (device : panos_add_rule.Device)
          (p : panos_add_rule.Params),
      panos_add_rule.is_panorama device = false ->
      panos_add_rule.main HAS_LIB device p
      = panos_add_rule.main HAS_LIB device (creation_without_group p)).
Proof.
  split.
  - intros runtime serializer HAS_LIB device p Hfw. unfold panos_query.main.
    destruct (negb HAS_LIB); [reflexivity|].
    rewrite !(main_devicegroup_firewall device _ Hfw).
    unfold panos_query.main_query.
    destruct (panos_query.get_rulebase device None) as [rulelist|]; [|reflexivity].
    rewrite rule_loop_without_group. reflexivity.
  - intros HAS_LIB device p Hfw. unfold panos_add_rule.main.
    destruct (negb HAS_LIB); [reflexivity|]. rewrite Hfw.
    unfold panos_add_rule.main_create, panos_add_rule.get_rulebase.
    unfold panos_add_rule.is_panorama in Hfw.
    destruct (panos_add_rule.device_kind device); [| discriminate |];
      reflexivity.
Qed.

Lemma firewall_ignores_the_device_group_witness :
  panos_add_rule.main true Fixtures.creating_firewall
    (Fixtures.with_profiles (Some "DeviceGroupA"))
  = panos_add_rule.main true Fixtures.creating_firewall
      (creation_without_group (Fixtures.with_profiles (Some "DeviceGroupA"))).
Proof.
  exact (proj2 firewall_ignores_the_device_group true Fixtures.creating_firewall
           (Fixtures.with_profiles (Some "DeviceGroupA")) eq_refl).
Defined.

(** ** The address test, kind by kind *)

Lemma split_without (c : ascii) (s : string) :
  char_in c s = false -> split c s = [s].
Proof.
  induction s as [|d s IH]; simpl; [reflexivity|].
  destruct (Ascii.eqb d c); simpl; [discriminate|].
  intros H. rewrite (IH H). reflexivity.
Qed.

(** X3: the address test reads the queried address first and raises
    ValueError on an unreadable one, whatever it is tested against.  With
    a readable address it is False on everything that is not an Address
    Object and on an Address Object of a kind other than ip-netmask and
    ip-range; on an ip-netmask object it is the membership in the network
    the value parses to, and ValueError for a value that does not parse;
    on an ip-range object whose value has no dash it raises ValueError or,
    the value being a readable address, IndexError. *)
Theorem addr_in_obj_by_kind :
  forall (runtime : PyRuntime) (addr : string) (obj : panos_query.value),
    (ip_address addr = None ->
     panos_query.addr_in_obj addr obj = Raise ValueError)
    /\
    (forall ip : IPAddress,
        ip_address addr = Some ip ->
        (panos_query.isinstance obj panos_query.CAddressObject = false ->
         panos_query.addr_in_obj addr obj = Ok false)
        /\
        (forall o : panos_query.AddressObject,
            obj = panos_query.VObject (panos_query.IsAddressObject o) ->
            (panos_query.ao_type o = "ip-netmask" ->
             panos_query.addr_in_obj addr obj
             = match ip_network (panos_query.ao_value o) with
               | Some net => Ok (ip_in_net ip net)
               | None => Raise ValueError
               end)
            /\
            (panos_query.ao_type o <> "ip-netmask" ->
             panos_query.ao_type o <> "ip-range" ->
             panos_query.addr_in_obj addr obj = Ok false)
            /\
            (panos_query.ao_type o = "ip-range" ->
             char_in "-" (panos_query.ao_value o) = false ->
             panos_query.addr_in_obj addr obj
             = match ip_address (panos_query.ao_value o) with
               | Some _ => Raise IndexError
               | None => Raise ValueError
               end))).
Proof.
  intros runtime addr obj. split; [apply addr_in_obj_unreadable|].
  intros ip Hip. split.
  - intros Hobj. unfold panos_query.addr_in_obj. rewrite Hip. simpl.
    destruct obj as [|[o|g|s|g|t]|n]; try reflexivity. discriminate.
  - intros o ->. unfold panos_query.addr_in_obj. rewrite Hip. simpl.
    split; [|split].
    + intros ->. simpl.
      destruct (ip_network (panos_query.ao_value o)) as [net|]; simpl;
        [|reflexivity].
      destruct (ip_in_net ip net); reflexivity.
    + intros Hn Hr.
      destruct (String.eqb_spec (panos_query.ao_type o) "ip-netmask");
        [contradiction|]. simpl.
      destruct (String.eqb_spec (panos_query.ao_type o) "ip-range");
        [contradiction | reflexivity].
    + intros -> Hdash. simpl. rewrite (split_without _ _ Hdash). simpl.
      destruct (ip_address (panos_query.ao_value o)); reflexivity.
Qed.

Lemma addr_in_obj_by_kind_witness :
  let host := {|
    panos_query.ao_name := "host"; panos_query.ao_type := "ip-netmask";
    panos_query.ao_value := "10.0.0.1/24" |} in
  let name := {|
    panos_query.ao_name := "name"; panos_query.ao_type := "fqdn";
    panos_query.ao_value := "www.example.com" |} in
  @panos_query.addr_in_obj ipv4_runtime "10.0.0.5"
    (panos_query.VObject (panos_query.IsAddressObject host))
  = Raise ValueError
  /\ @panos_query.addr_in_obj ipv4_runtime "10.0.0.5"
       (panos_query.VObject (panos_query.IsAddressObject name))
     = Ok false.
Proof.
  intros host name.
  pose (ip := mkIPAddress 4 167772165).
  split.
  - exact (proj1 (proj2 (proj2 (addr_in_obj_by_kind ipv4_runtime "10.0.0.5"
                                  (panos_query.VObject
                                     (panos_query.IsAddressObject host)))
                           ip eq_refl) host eq_refl) eq_refl).
  - refine (proj1 (proj2 (proj2 (proj2 (addr_in_obj_by_kind ipv4_runtime "10.0.0.5"
                                          (panos_query.VObject
                                             (panos_query.IsAddressObject name)))
                                   ip eq_refl) name eq_refl)) _ _);
      discriminate.
Defined.
